(** * SSO service: authentication core and its gRPC transport

    A shallow embedding of [sso/internal/services/auth] (the [Auth] service:
    [Login], [RegisterNewUser], [IsAdmin]) and of [sso/internal/grpc/auth]
    (the [serverAPI] handlers, the request validation structs and
    [formatValidationErrors]).

    Go values are embedded as follows.
    - [string] is a Rocq [string] (a sequence of bytes), [[]byte] a
      [list byte]; [int], [int32], [int64] and [time.Duration] are [Z]
      (no arithmetic is performed on them by the code).
    - A Go [error] is an [option error]: [None] is [nil].
    - A Go function returning [(T, error)] returns a pair: the code decides
      itself what it hands back next to a non-nil error.
    - Calls that leave the two packages (the stores behind the [UserSaver],
      [UserProvider] and [AppProvider] interfaces, [bcrypt], [jwt.NewToken],
      the [slog] logger) are nodes of a call tree ([prog]); an environment
      ([oracle]) answers them, and [run] records every call with its answer.
    - The [context.Context] is handed through to the collaborators
      untouched and is left out. *)

From Stdlib Require Import String Ascii List ZArith Bool Lia Eqdep_dec.
From Stdlib Require Import DecimalString.
From Stdlib Require Strings.Byte.
Import ListNotations.
Local Open Scope string_scope.
Local Open Scope Z_scope.

(** ** Package [errors] and [fmt.Errorf] *)

(** A value made by [errors.New]: a pointer to an [errorString]. Two such
    values are [==] exactly when they are the same pointer. *)
Record sentinel : Type := { addr : positive; text : string }.

(** The error values the code handles: a sentinel, or a [*fmt.wrapError]
    made by [fmt.Errorf] with one [%w] verb. The errors of the
    collaborators are taken to be of these shapes too (none brings an [Is]
    method of its own). *)
Inductive error : Type :=
| errorString (e : sentinel)
| wrapError (msg : string) (err : error).

Coercion errorString : sentinel >-> error.

(** [err.Error()] *)
Definition Error (err : error) : string :=
  match err with
  | errorString e => text e
  | wrapError msg _ => msg
  end.

(** [errors.Unwrap(err)] *)
Definition errors_Unwrap (err : error) : option error :=
  match err with
  | errorString _ => None
  | wrapError _ cause => Some cause
  end.

(** [errors.Is(err, target)] for a [target] made by [errors.New]: walk the
    [Unwrap] chain and compare each link with [==]. A [*wrapError] and a
    [*errorString] differ in dynamic type, so only sentinels can match. *)
Fixpoint errors_Is (err : error) (target : sentinel) : bool :=
  match err with
  | errorString e => Pos.eqb (addr e) (addr target)
  | wrapError _ cause => errors_Is cause target
  end.

(** [fmt.Errorf("%s: %w", op, err)] *)
Definition fmt_Errorf (op : string) (err : error) : error :=
  wrapError (op ++ ": " ++ Error err) err.

(** ** Call trees *)

Section Prog.
Context {C : Type} {R : C -> Type}.

(** A program over an interface: it returns, or performs the call [c] and
    continues with the answer. *)
Inductive prog (A : Type) : Type :=
| Ret (a : A)
| Call (c : C) (k : R c -> prog A).

Arguments Ret {A} a.
Arguments Call {A} c k.

Fixpoint bind {A B : Type} (p : prog A) (f : A -> prog B) : prog B :=
  match p with
  | Ret a => f a
  | Call c k => Call c (fun r => bind (k r) f)
  end.

Definition call (c : C) : prog (R c) := Call c (fun r => Ret r).

(** One recorded step of an execution: the call and the answer it got. *)
Definition event : Type := { c : C & R c }.
Definition Ev (c : C) (r : R c) : event := existT _ c r.

(** The environment: it answers every call, and may change its state. *)
Definition oracle (S : Type) : Type := forall c : C, S -> R c * S.

(** Run [p] against [o] from state [s]: result, trace and final state. *)
Fixpoint run {S A : Type} (o : oracle S) (p : prog A) (s : S)
  : A * list event * S :=
  match p with
  | Ret a => (a, [], s)
  | Call c k =>
      let '(r, s1) := o c s in
      let '(a, tr, s2) := run o (k r) s1 in
      (a, Ev c r :: tr, s2)
  end.

Definition result_of {S A : Type} (o : oracle S) (p : prog A) (s : S) : A :=
  fst (fst (run o p s)).

Definition trace_of {S A : Type} (o : oracle S) (p : prog A) (s : S)
  : list event :=
  snd (fst (run o p s)).

End Prog.

Arguments prog C R A : clear implicits.
Arguments Ret {C R A} a.
Arguments Call {C R A} c k.
Arguments event C R : clear implicits.
Arguments oracle C R S : clear implicits.

(** Plug an implementation of the interface [C1] into a program over it:
    every call becomes the call tree of its implementation. *)
Fixpoint link {C1 : Type} {R1 : C1 -> Type} {C2 : Type} {R2 : C2 -> Type}
  {A : Type} (impl : forall c : C1, prog C2 R2 (R1 c)) (p : prog C1 R1 A)
  : prog C2 R2 A :=
  match p with
  | Ret a => Ret a
  | Call c k => bind (impl c) (fun r => link impl (k r))
  end.

Declare Scope prog_scope.
Delimit Scope prog_scope with prog.
Notation "x <- p ;; q" := (bind p (fun x => q))
  (at level 61, p at next level, right associativity) : prog_scope.
Notation "' pat <- p ;; q" := (bind p (fun x => match x with pat => q end))
  (at level 61, pat pattern, p at next level, right associativity) : prog_scope.
Notation "p ;; q" := (bind p (fun _ => q))
  (at level 61, right associativity) : prog_scope.

(** ** Package [models] *)

Definition bytes : Type := list Byte.byte.

(** Modelled from the spec: the declaration of [models.User] is not among
    the sources; the spec gives a numeric ID, an email and a password hash
    (an opaque byte sequence). The code reads [user.PassHash] only. *)
Record models_User : Type :=
  { User_ID : Z; User_Email : string; User_PassHash : bytes }.

(** Modelled from the spec: the declaration of [models.App] is not among
    the sources; the spec gives a numeric ID, a display name and a signing
    secret. The code passes the value to [jwt.NewToken] unread. *)
Record models_App : Type :=
  { App_ID : Z; App_Name : string; App_Secret : string }.

(** ** Package [slog]: what a log call is given *)

Inductive slog_Attr : Type :=
| slog_String (key value : string)
| slog_Int64 (key : string) (value : Z)
| slog_Bool (key : string) (value : bool).

Inductive slog_Level : Type := LevelInfo | LevelWarn | LevelError.

Inductive slog_arg : Type :=
| arg_string (s : string)
| arg_Attr (a : slog_Attr).

(** A [*slog.Logger]: the attributes attached with [With]. *)
Definition Logger : Type := list slog_Attr.
Definition Logger_With (l : Logger) (attrs : list slog_Attr) : Logger :=
  (l ++ attrs)%list.

(** ** The calls of the authentication core *)

Inductive core_call : Type :=
| userProvider_User (email : string)
| userProvider_IsAdmin (userID : Z)
| userSaver_SaveUser (email : string) (passHash : bytes)
| appProvider_App (appID : Z)
| bcrypt_CompareHashAndPassword (hashedPassword password : bytes)
| bcrypt_GenerateFromPassword (password : bytes) (cost : Z)
| jwt_NewToken (user : models_User) (app : models_App) (duration : Z)
| slog_Log (l : Logger) (level : slog_Level) (msg : string)
    (args : list slog_arg).

Definition core_ret (c : core_call) : Type :=
  match c with
  | userProvider_User _ => (models_User * option error)%type
  | userProvider_IsAdmin _ => (bool * option error)%type
  | userSaver_SaveUser _ _ => (Z * option error)%type
  | appProvider_App _ => (models_App * option error)%type
  | bcrypt_CompareHashAndPassword _ _ => option error
  | bcrypt_GenerateFromPassword _ _ => (bytes * option error)%type
  | jwt_NewToken _ _ _ => (string * option error)%type
  | slog_Log _ _ _ _ => unit
  end.

Definition core (A : Type) : Type := prog core_call core_ret A.
Definition core_event : Type := event core_call core_ret.

(** [bcrypt.DefaultCost] *)
Definition bcrypt_DefaultCost : Z := 10.

(** [[]byte(s)] *)
Definition bytes_of (s : string) : bytes := list_byte_of_string s.

Definition Logger_Info (l : Logger) (msg : string) (args : list slog_arg)
  : core unit := call (slog_Log l LevelInfo msg args).
Definition Logger_Warn (l : Logger) (msg : string) (args : list slog_arg)
  : core unit := call (slog_Log l LevelWarn msg args).
Definition Logger_Error (l : Logger) (msg : string) (args : list slog_arg)
  : core unit := call (slog_Log l LevelError msg args).

(** ** Declarations the sources use but do not contain *)

(** Package [storage] (its three sentinels), the sentinel
    [auth.ErrUserNotFound] that [serverAPI.IsAdmin] names, and the regular
    expression behind the validator's [email] tag are parameters of the
    development. *)
Class Externals : Type :=
  { storage_ErrUserNotFound : sentinel;
    storage_ErrAppNotFound : sentinel;
    storage_ErrUserExists : sentinel;
    ErrUserNotFound : sentinel;
    isEmail : string -> bool }.

(** ** Package [services/auth] *)

(** The sentinels of the [var] block: three distinct [errors.New] values. *)
Definition ErrInvalidCredentials : sentinel :=
  {| addr := 1; text := "invalid credentials" |}.
Definition ErrInvalidAppID : sentinel :=
  {| addr := 2; text := "invalid app id" |}.
Definition ErrUserExists : sentinel :=
  {| addr := 3; text := "user already exists" |}.

(** The [Auth] struct. Its three collaborators are the calls
    [userSaver_*], [userProvider_*] and [appProvider_*] of [core_call]. *)
Record Auth : Type := { Auth_log : Logger; Auth_tokenTTL : Z }.

Section ServicesAuth.
Context `{Externals}.
Local Open Scope prog_scope.

Definition Auth_Login (a : Auth) (email password : string) (appID : Z)
  : core (string * option error) :=
  let op := "services.auth.Login" in
  let log := Logger_With (Auth_log a)
               [slog_String "op" op; slog_String "email" email] in
  Logger_Info log "logging user" [] ;;
  '(user, err) <- call (userProvider_User email) ;;
  match err with
  | Some err =>
      if errors_Is err storage_ErrUserNotFound then
        Logger_Warn log "invalid credentials" [arg_string (Error err)] ;;
        Ret ("", Some (fmt_Errorf op ErrInvalidCredentials))
      else
        Logger_Error log "failed to get user" [arg_string (Error err)] ;;
        Ret ("", Some (fmt_Errorf op err))
  | None =>
      err <- call (bcrypt_CompareHashAndPassword
                     (User_PassHash user) (bytes_of password)) ;;
      match err with
      | Some err =>
          Logger_Warn log "invalid credentials" [arg_string (Error err)] ;;
          Ret ("", Some (fmt_Errorf op ErrInvalidCredentials))
      | None =>
          '(app, err) <- call (appProvider_App appID) ;;
          match err with
          | Some err => Ret ("", Some (fmt_Errorf op err))
          | None =>
              '(token, err) <- call (jwt_NewToken user app (Auth_tokenTTL a)) ;;
              match err with
              | Some err =>
                  Logger_Error (Auth_log a) "failed to generate token"
                    [arg_string (Error err)] ;;
                  Ret ("", Some (fmt_Errorf op err))
              | None =>
                  Logger_Info log "user logged in successfully" [] ;;
                  Ret (token, None)
              end
          end
      end
  end.

Definition Auth_RegisterNewUser (a : Auth) (email password : string)
  : core (Z * option error) :=
  let op := "services.auth.RegisterNewUser" in
  let log := Logger_With (Auth_log a)
               [slog_String "op" op; slog_String "email" email] in
  Logger_Info log "registering user" [] ;;
  '(passHash, err) <- call (bcrypt_GenerateFromPassword
                              (bytes_of password) bcrypt_DefaultCost) ;;
  match err with
  | Some err =>
      Logger_Error log "failed to generate password hash"
        [arg_string (Error err)] ;;
      Ret (0, Some (fmt_Errorf op err))
  | None =>
      '(userID, err) <- call (userSaver_SaveUser email passHash) ;;
      match err with
      | Some err =>
          if errors_Is err storage_ErrUserExists then
            Logger_Warn log "user already exists" [arg_string (Error err)] ;;
            Ret (0, Some (fmt_Errorf op ErrUserExists))
          else
            Logger_Error log "failed to save user" [arg_string (Error err)] ;;
            Ret (0, Some (fmt_Errorf op err))
      | None =>
          Logger_Info log "user registered" [] ;;
          Ret (userID, None)
      end
  end.

Definition Auth_IsAdmin (a : Auth) (userID : Z) : core (bool * option error) :=
  let op := "services.auth.IsAdmin" in
  let log := Logger_With (Auth_log a)
               [slog_String "op" op; slog_Int64 "user_id" userID] in
  Logger_Info log "checking ig user is admin" [] ;;
  '(isAdmin, err) <- call (userProvider_IsAdmin userID) ;;
  match err with
  | Some err =>
      if errors_Is err storage_ErrAppNotFound then
        Logger_Warn log "invalid credentials" [arg_string (Error err)] ;;
        Ret (false, Some (fmt_Errorf op ErrInvalidAppID))
      else
        Ret (false, Some (fmt_Errorf op err))
  | None =>
      Logger_Info log "checked if user is admin"
        [arg_Attr (slog_Bool "is_admin" isAdmin)] ;;
      Ret (isAdmin, None)
  end.

End ServicesAuth.

(** ** Package [unicode/utf8]: counting runes *)

(** The bytes of a string as numbers. *)
Definition byte_values (s : string) : list Z :=
  map (fun c => Z.of_N (N_of_ascii c)) (list_ascii_of_string s).

(** For a leading byte [c]: the length of the encoding it announces and the
    range accepted for the second byte ([first] and [acceptRanges]);
    length 1 for ASCII and for bytes that cannot start an encoding. *)
Definition utf8_first (c : Z) : nat * Z * Z :=
  if c <? 0x80 then (1%nat, 0, 0)
  else if c <? 0xC2 then (1%nat, 0, 0)
  else if c <? 0xE0 then (2%nat, 0x80, 0xBF)
  else if c =? 0xE0 then (3%nat, 0xA0, 0xBF)
  else if c =? 0xED then (3%nat, 0x80, 0x9F)
  else if c <? 0xF0 then (3%nat, 0x80, 0xBF)
  else if c =? 0xF0 then (4%nat, 0x90, 0xBF)
  else if c <? 0xF4 then (4%nat, 0x80, 0xBF)
  else if c =? 0xF4 then (4%nat, 0x80, 0x8F)
  else (1%nat, 0, 0).

Definition continuation (c : Z) : bool := (0x80 <=? c) && (c <=? 0xBF).

(** The number of bytes the rune starting with [c] takes, [rest] being the
    bytes after it: an encoding that is cut short or malformed counts as a
    rune of one byte. *)
Definition rune_width (c : Z) (rest : list Z) : nat :=
  let '(size, lo, hi) := utf8_first c in
  match size with
  | 2%nat =>
      match rest with
      | c1 :: _ => if (lo <=? c1) && (c1 <=? hi) then 2%nat else 1%nat
      | _ => 1%nat
      end
  | 3%nat =>
      match rest with
      | c1 :: c2 :: _ =>
          if (lo <=? c1) && (c1 <=? hi) && continuation c2
          then 3%nat else 1%nat
      | _ => 1%nat
      end
  | 4%nat =>
      match rest with
      | c1 :: c2 :: c3 :: _ =>
          if (lo <=? c1) && (c1 <=? hi) && continuation c2 && continuation c3
          then 4%nat else 1%nat
      | _ => 1%nat
      end
  | _ => 1%nat
  end.

(** The loop of [RuneCountInString]: [skip] bytes of the current rune are
    still to be passed over. *)
Fixpoint count_runes (skip : nat) (l : list Z) : Z :=
  match l with
  | [] => 0
  | c :: rest =>
      match skip with
      | S k => count_runes k rest
      | O => 1 + count_runes (Nat.pred (rune_width c rest)) rest
      end
  end.

Definition utf8_RuneCountInString (s : string) : Z :=
  count_runes 0 (byte_values s).

(** ** Package [validator]: the tags the request structs use *)

Inductive tag : Type :=
| tag_required
| tag_email
| tag_min (param : Z)
| tag_max (param : Z)
| tag_gt (param : Z).

(** [FieldError.Tag()] *)
Definition tag_name (t : tag) : string :=
  match t with
  | tag_required => "required"
  | tag_email => "email"
  | tag_min _ => "min"
  | tag_max _ => "max"
  | tag_gt _ => "gt"
  end.

(** The kinds of field the request structs have. *)
Inductive field_value : Type :=
| of_string (s : string)
| of_int (i : Z).

Record field : Type :=
  { field_name : string; field_val : field_value; field_tags : list tag }.

Record FieldError : Type := { Field : string; Tag : string }.

(** What [validate.Struct] can return as a non-nil error. *)
Inductive validation_error : Type :=
| ValidationErrors (errs : list FieldError)
| InvalidValidationError.

(** ** Protobuf messages of [ssov1] *)

Record LoginRequest : Type :=
  { LoginRequest_Email : string;
    LoginRequest_Password : string;
    LoginRequest_AppId : Z }.
Record RegisterRequest : Type :=
  { RegisterRequest_Email : string; RegisterRequest_Password : string }.
Record IsAdminRequest : Type := { IsAdminRequest_UserId : Z }.

Record LoginResponse : Type := { LoginResponse_Token : string }.
Record RegisterResponse : Type := { RegisterResponse_UserId : Z }.
Record IsAdminResponse : Type := { IsAdminResponse_IsAdmin : bool }.

(** ** Packages [codes] and [status] *)

Inductive codes : Type :=
| codes_InvalidArgument
| codes_NotFound
| codes_AlreadyExists
| codes_Internal.

Record Status : Type := { Code : codes; Message : string }.

Definition status_Error (c : codes) (msg : string) : Status :=
  {| Code := c; Message := msg |}.

(** [fmt.Sprintf("%v", l)] for a [[]string]. *)
Definition fmt_v (l : list string) : string :=
  "[" ++ String.concat " " l ++ "]".

(** ** Package [grpc/auth] *)

(** The [Auth] interface the handlers are given. *)
Inductive auth_call : Type :=
| Auth_call_Login (email password : string) (appID : Z)
| Auth_call_RegisterNewUser (email password : string)
| Auth_call_IsAdmin (userID : Z).

Definition auth_ret (c : auth_call) : Type :=
  match c with
  | Auth_call_Login _ _ _ => (string * option error)%type
  | Auth_call_RegisterNewUser _ _ => (Z * option error)%type
  | Auth_call_IsAdmin _ => (bool * option error)%type
  end.

Definition handler (A : Type) : Type := prog auth_call auth_ret A.

Record LoginRequestValidation : Type :=
  { LoginRequestValidation_Email : string;
    LoginRequestValidation_Password : string;
    LoginRequestValidation_AppId : Z }.

Record RegisterRequestValidation : Type :=
  { RegisterRequestValidation_Email : string;
    RegisterRequestValidation_Password : string }.

Record IsAdminRequestValidation : Type :=
  { IsAdminRequestValidation_UserId : Z }.

(** The struct tags, field by field in declaration order. *)
Definition LoginRequestValidation_fields (d : LoginRequestValidation)
  : list field :=
  [ {| field_name := "Email";
       field_val := of_string (LoginRequestValidation_Email d);
       field_tags := [tag_required; tag_email] |};
    {| field_name := "Password";
       field_val := of_string (LoginRequestValidation_Password d);
       field_tags := [tag_required; tag_min 6] |};
    {| field_name := "AppId";
       field_val := of_int (LoginRequestValidation_AppId d);
       field_tags := [tag_required; tag_gt 0] |} ].

Definition RegisterRequestValidation_fields (d : RegisterRequestValidation)
  : list field :=
  [ {| field_name := "Email";
       field_val := of_string (RegisterRequestValidation_Email d);
       field_tags := [tag_required; tag_email] |};
    {| field_name := "Password";
       field_val := of_string (RegisterRequestValidation_Password d);
       field_tags := [tag_required; tag_min 6; tag_max 32] |} ].

Definition IsAdminRequestValidation_fields (d : IsAdminRequestValidation)
  : list field :=
  [ {| field_name := "UserId";
       field_val := of_int (IsAdminRequestValidation_UserId d);
       field_tags := [tag_required; tag_gt 0] |} ].

(** The struct each handler builds from its request before validating. *)
Definition Login_data (req : LoginRequest) : LoginRequestValidation :=
  {| LoginRequestValidation_Email := LoginRequest_Email req;
     LoginRequestValidation_Password := LoginRequest_Password req;
     LoginRequestValidation_AppId := LoginRequest_AppId req |}.

Definition Register_data (req : RegisterRequest) : RegisterRequestValidation :=
  {| RegisterRequestValidation_Email := RegisterRequest_Email req;
     RegisterRequestValidation_Password := RegisterRequest_Password req |}.

Definition IsAdmin_data (req : IsAdminRequest) : IsAdminRequestValidation :=
  {| IsAdminRequestValidation_UserId := IsAdminRequest_UserId req |}.

Definition internalServerError : string := "internal server error".

Section GrpcAuth.
Context `{Externals}.
Local Open Scope prog_scope.

(** The validator's check behind each tag: [hasValue], the [email] regular
    expression, [isGte], [isLte], [isGt]. Strings are measured in runes.
    The [email] tag is put on strings only. *)
Definition tag_holds (t : tag) (v : field_value) : bool :=
  match t, v with
  | tag_required, of_string s => negb (String.eqb s "")
  | tag_required, of_int i => negb (i =? 0)
  | tag_email, of_string s => isEmail s
  | tag_email, of_int _ => false
  | tag_min p, of_string s => p <=? utf8_RuneCountInString s
  | tag_min p, of_int i => p <=? i
  | tag_max p, of_string s => utf8_RuneCountInString s <=? p
  | tag_max p, of_int i => i <=? p
  | tag_gt p, of_string s => p <? utf8_RuneCountInString s
  | tag_gt p, of_int i => p <? i
  end.

(** The tags of a field are tried in order; the first that fails is
    reported and ends the field. *)
Fixpoint first_failing (ts : list tag) (v : field_value) : option tag :=
  match ts with
  | [] => None
  | t :: ts' => if tag_holds t v then first_failing ts' v else Some t
  end.

Definition validate_field (f : field) : list FieldError :=
  match first_failing (field_tags f) (field_val f) with
  | Some t => [ {| Field := field_name f; Tag := tag_name t |} ]
  | None => []
  end.

(** A field passes when each of its tags holds. *)
Definition field_ok (f : field) : bool :=
  forallb (fun t => tag_holds t (field_val f)) (field_tags f).

(** What one reported violation says: a field of the struct, and a tag of
    that field which does not hold. *)
Definition reports (fs : list field) (fe : FieldError) : Prop :=
  exists f t, In f fs /\ In t (field_tags f) /\
    tag_holds t (field_val f) = false /\
    Field fe = field_name f /\ Tag fe = tag_name t.

(** [validate.Struct(data)] on a struct with the fields [fs]: [nil], or the
    [ValidationErrors] of the fields in order. *)
Definition validate_Struct (fs : list field) : option validation_error :=
  match flat_map validate_field fs with
  | [] => None
  | errs => Some (ValidationErrors errs)
  end.

Definition formatValidationErrors (err : validation_error) : list string :=
  match err with
  | InvalidValidationError => ["Invalid validation error type"]
  | ValidationErrors validationErrors =>
      map (fun vErr =>
             "Field '" ++ Field vErr ++ "' failed validation: " ++ Tag vErr)
          validationErrors
  end.

(** [status.Errorf(codes.InvalidArgument, "validation error: %v", l)] *)
Definition validation_status (validationErrors : list string) : Status :=
  status_Error codes_InvalidArgument
    ("validation error: " ++ fmt_v validationErrors).

Definition serverAPI_Login (req : LoginRequest)
  : handler (option LoginResponse * option Status) :=
  let data := Login_data req in
  match validate_Struct (LoginRequestValidation_fields data) with
  | Some err =>
      let validationErrors := formatValidationErrors err in
      Ret (None, Some (validation_status validationErrors))
  | None =>
      '(token, err) <- call (Auth_call_Login (LoginRequest_Email req)
                               (LoginRequest_Password req)
                               (LoginRequest_AppId req)) ;;
      match err with
      | Some err =>
          if errors_Is err ErrInvalidCredentials then
            Ret (None, Some (status_Error codes_InvalidArgument
                               "invalid email or password"))
          else
            Ret (None, Some (status_Error codes_Internal internalServerError))
      | None => Ret (Some {| LoginResponse_Token := token |}, None)
      end
  end.

Definition serverAPI_Register (req : RegisterRequest)
  : handler (option RegisterResponse * option Status) :=
  let data := Register_data req in
  match validate_Struct (RegisterRequestValidation_fields data) with
  | Some err =>
      let validationErrors := formatValidationErrors err in
      Ret (None, Some (validation_status validationErrors))
  | None =>
      '(userID, err) <- call (Auth_call_RegisterNewUser
                                (RegisterRequest_Email req)
                                (RegisterRequest_Password req)) ;;
      match err with
      | Some err =>
          if errors_Is err ErrUserExists then
            Ret (None, Some (status_Error codes_AlreadyExists
                               "user already exists"))
          else
            Ret (None, Some (status_Error codes_Internal internalServerError))
      | None => Ret (Some {| RegisterResponse_UserId := userID |}, None)
      end
  end.

Definition serverAPI_IsAdmin (req : IsAdminRequest)
  : handler (option IsAdminResponse * option Status) :=
  let data := IsAdmin_data req in
  match validate_Struct (IsAdminRequestValidation_fields data) with
  | Some err =>
      let validationErrors := formatValidationErrors err in
      Ret (None, Some (validation_status validationErrors))
  | None =>
      '(isAdmin, err) <- call (Auth_call_IsAdmin (IsAdminRequest_UserId req)) ;;
      match err with
      | Some err =>
          if errors_Is err ErrUserNotFound then
            Ret (None, Some (status_Error codes_NotFound "user not found"))
          else
            Ret (None, Some (status_Error codes_Internal internalServerError))
      | None => Ret (Some {| IsAdminResponse_IsAdmin := isAdmin |}, None)
      end
  end.

(** [RegisterServer(gRPC, auth)] with the service [a] of [services/auth] as
    [auth]: the interface calls run the service's methods. *)
Definition Auth_impl (a : Auth) (c : auth_call) : core (auth_ret c) :=
  match c with
  | Auth_call_Login email password appID => Auth_Login a email password appID
  | Auth_call_RegisterNewUser email password =>
      Auth_RegisterNewUser a email password
  | Auth_call_IsAdmin userID => Auth_IsAdmin a userID
  end.

Definition served {A : Type} (a : Auth) (h : handler A) : core A :=
  link (Auth_impl a) h.

End GrpcAuth.

(** [New] of package [services/auth]: the struct with the logger and the
    TTL; the three collaborators it is given are the calls of
    [core_call]. *)
Definition Auth_New (log : Logger) (tokenTTL : Z) : Auth :=
  {| Auth_log := log; Auth_tokenTTL := tokenTTL |}.

(** ** What a run of the core shows *)

(** The error a collaborator answered with, if any. *)
Definition answered_error (e : core_event) : option error :=
  match e with
  | existT _ c r =>
      match c return core_ret c -> option error with
      | userProvider_User _ => fun r => snd r
      | userProvider_IsAdmin _ => fun r => snd r
      | userSaver_SaveUser _ _ => fun r => snd r
      | appProvider_App _ => fun r => snd r
      | bcrypt_CompareHashAndPassword _ _ => fun r => r
      | bcrypt_GenerateFromPassword _ _ => fun r => snd r
      | jwt_NewToken _ _ _ => fun r => snd r
      | slog_Log _ _ _ _ => fun _ => None
      end r
  end.

(** The calls [Login] may make, with the arguments it may pass. *)
Definition Login_may_call (a : Auth) (email password : string) (appID : Z)
  (c : core_call) : Prop :=
  match c with
  | slog_Log _ _ _ _ => True
  | userProvider_User email' => email' = email
  | bcrypt_CompareHashAndPassword _ password' => password' = bytes_of password
  | appProvider_App appID' => appID' = appID
  | jwt_NewToken _ _ ttl => ttl = Auth_tokenTTL a
  | _ => False
  end.

(** The calls [RegisterNewUser] may make. *)
Definition Register_may_call (email password : string) (c : core_call)
  : Prop :=
  match c with
  | slog_Log _ _ _ _ => True
  | bcrypt_GenerateFromPassword password' cost =>
      password' = bytes_of password /\ cost = bcrypt_DefaultCost
  | userSaver_SaveUser email' _ => email' = email
  | _ => False
  end.

(** The calls [IsAdmin] may make. *)
Definition IsAdmin_may_call (userID : Z) (c : core_call) : Prop :=
  match c with
  | slog_Log _ _ _ _ => True
  | userProvider_IsAdmin userID' => userID' = userID
  | _ => False
  end.

(** The calls of a run that go to a collaborator, not to the logger. *)
Definition is_log (c : core_call) : bool :=
  match c with
  | slog_Log _ _ _ _ => true
  | _ => false
  end.

Definition collaborator_calls (tr : list core_event) : list core_call :=
  filter (fun c => negb (is_log c)) (map (@projT1 _ _) tr).

(** ** What an environment says, in whatever state it is *)

Section Accounts.
Context `{Externals}.
Context {St : Type} (o : oracle core_call core_ret St).



(** [bcrypt.GenerateFromPassword] succeeds on this password. *)
Definition hashing_works (password : string) : Prop :=
  forall s, exists hash,
    fst (o (bcrypt_GenerateFromPassword
              (bytes_of password) bcrypt_DefaultCost) s) = (hash, None).

(** The user store fails every save under this email with [err]. *)
Definition save_fails_with (email : string) (err : error) : Prop :=
  forall s hash, exists id,
    fst (o (userSaver_SaveUser email hash) s) = (id, Some err).

(** The user store accepts every save under this email and assigns [id]. *)
Definition save_assigns (email : string) (id : Z) : Prop :=
  forall s hash, fst (o (userSaver_SaveUser email hash) s) = (id, None).

End Accounts.

(** The log calls of a run. *)
Definition log_lines (tr : list core_event) : list core_call :=
  filter is_log (map (@projT1 _ _) tr).

(** ** Package [app/grpcapp] *)

(** A [*grpc.Server]: a handle. *)
Definition grpc_Server : Type := Z.

(** A [net.Listener]: what [lis.Addr().String()] gives. *)
Record net_Listener : Type := { Listener_Addr : string }.

(** The [serverAPI] struct of package [grpc/auth]. *)
Record serverAPI : Type := { serverAPI_auth : Auth }.

(** The calls of package [grpcapp] that leave it. *)
Inductive app_call : Type :=
| grpc_NewServer
| ssov1_RegisterAuthServer (gRPC : grpc_Server) (srv : serverAPI)
| net_Listen (network address : string)
| Server_Serve (gRPCServer : grpc_Server) (lis : net_Listener)
| Server_GracefulStop (gRPCServer : grpc_Server)
| app_Log (l : Logger) (level : slog_Level) (msg : string)
    (args : list slog_arg).

Definition app_ret (c : app_call) : Type :=
  match c with
  | grpc_NewServer => grpc_Server
  | ssov1_RegisterAuthServer _ _ => unit
  | net_Listen _ _ => (net_Listener * option error)%type
  | Server_Serve _ _ => option error
  | Server_GracefulStop _ => unit
  | app_Log _ _ _ _ => unit
  end.

Definition app (A : Type) : Type := prog app_call app_ret A.
Definition app_event : Type := event app_call app_ret.

(** [slog.Int(key, value)] is [slog.Int64(key, int64(value))]. *)
Definition slog_Int (key : string) (value : Z) : slog_Attr :=
  slog_Int64 key value.

(** [fmt.Sprintf("%d", n)] *)
Definition fmt_d (n : Z) : string := NilZero.string_of_int (Z.to_int n).

(** [RegisterServer] of package [grpc/auth]. *)
Definition RegisterServer (gRPC : grpc_Server) (auth : Auth) : app unit :=
  call (ssov1_RegisterAuthServer gRPC {| serverAPI_auth := auth |}).

(** The [App] struct of package [grpcapp]. *)
Record grpcapp_App : Type :=
  { App_log : Logger; App_gRPCServer : grpc_Server; App_port : Z }.

(** How a function without results ends. *)
Inductive outcome : Type :=
| returned
| panicked (v : error).

Section Grpcapp.
Local Open Scope prog_scope.

Definition grpcapp_New (log : Logger) (authService : Auth) (port : Z)
  : app grpcapp_App :=
  gRPCServer <- call grpc_NewServer ;;
  RegisterServer gRPCServer authService ;;
  Ret {| App_log := log; App_gRPCServer := gRPCServer; App_port := port |}.

(** The logger that [a.log.With(...)] makes is dropped: the later [Info]
    goes to [a.log] itself. *)
Definition App_run (a : grpcapp_App) : app (option error) :=
  let op := "app.grpcapp.Run" in
  let _ := Logger_With (App_log a)
             [slog_String "op" op; slog_Int "port" (App_port a)] in
  '(lis, err) <- call (net_Listen "tcp" (":" ++ fmt_d (App_port a))) ;;
  match err with
  | Some err => Ret (Some (fmt_Errorf op err))
  | None =>
      call (app_Log (App_log a) LevelInfo "gRPC server is running"
              [arg_Attr (slog_String "address" (Listener_Addr lis))]) ;;
      err <- call (Server_Serve (App_gRPCServer a) lis) ;;
      match err with
      | Some err => Ret (Some (fmt_Errorf op err))
      | None => Ret None
      end
  end.

Definition App_MustRun (a : grpcapp_App) : app outcome :=
  err <- App_run a ;;
  match err with
  | Some err => Ret (panicked err)
  | None => Ret returned
  end.

Definition App_Stop (a : grpcapp_App) : app unit :=
  let op := "app.grpcapp.Stop" in
  call (app_Log (Logger_With (App_log a) [slog_String "op" op]) LevelInfo
          "stopping gRPC server" [arg_Attr (slog_Int "port" (App_port a))]) ;;
  call (Server_GracefulStop (App_gRPCServer a)).

End Grpcapp.

(** ** Environments to run the programs against *)

(** The answers of a scripted environment, one per collaborator operation. *)
Record answers : Type :=
  { on_User : models_User * option error;
    on_IsAdmin : bool * option error;
    on_SaveUser : Z * option error;
    on_App : models_App * option error;
    on_CompareHashAndPassword : option error;
    on_GenerateFromPassword : bytes * option error;
    on_NewToken : string * option error }.

(** An environment without state that gives the scripted answers. *)
Definition scripted (w : answers) : oracle core_call core_ret unit :=
  fun c s =>
    (match c return core_ret c with
     | userProvider_User _ => on_User w
     | userProvider_IsAdmin _ => on_IsAdmin w
     | userSaver_SaveUser _ _ => on_SaveUser w
     | appProvider_App _ => on_App w
     | bcrypt_CompareHashAndPassword _ _ => on_CompareHashAndPassword w
     | bcrypt_GenerateFromPassword _ _ => on_GenerateFromPassword w
     | jwt_NewToken _ _ _ => on_NewToken w
     | slog_Log _ _ _ _ => tt
     end, s).

(** The same answers, with another hash stored for the user. *)
Definition with_stored_hash (w : answers) (hash : bytes) : answers :=
  {| on_User := ({| User_ID := User_ID (fst (on_User w));
                    User_Email := User_Email (fst (on_User w));
                    User_PassHash := hash |}, snd (on_User w));
     on_IsAdmin := on_IsAdmin w;
     on_SaveUser := on_SaveUser w;
     on_App := on_App w;
     on_CompareHashAndPassword := on_CompareHashAndPassword w;
     on_GenerateFromPassword := on_GenerateFromPassword w;
     on_NewToken := on_NewToken w |}.

(** The same answers, with another hash made by [bcrypt]. *)
Definition with_generated_hash (w : answers) (hash : bytes) : answers :=
  {| on_User := on_User w;
     on_IsAdmin := on_IsAdmin w;
     on_SaveUser := on_SaveUser w;
     on_App := on_App w;
     on_CompareHashAndPassword := on_CompareHashAndPassword w;
     on_GenerateFromPassword := (hash, snd (on_GenerateFromPassword w));
     on_NewToken := on_NewToken w |}.

(** An implementation of the [Auth] interface that gives fixed answers. *)
Definition replying (login : string * option error)
  (register : Z * option error) (isAdmin : bool * option error)
  : oracle auth_call auth_ret unit :=
  fun c s =>
    (match c return auth_ret c with
     | Auth_call_Login _ _ _ => login
     | Auth_call_RegisterNewUser _ _ => register
     | Auth_call_IsAdmin _ => isAdmin
     end, s).

(** One choice of the missing declarations: sentinels of their own for
    package [storage] and for [auth.ErrUserNotFound], and an [email] check
    that asks for an [@] sign only. *)
Definition has_at (s : string) : bool :=
  existsb (Ascii.eqb "@") (list_ascii_of_string s).

Definition sample_externals : Externals :=
  {| storage_ErrUserNotFound := {| addr := 11; text := "user not found" |};
     storage_ErrAppNotFound := {| addr := 12; text := "app not found" |};
     storage_ErrUserExists := {| addr := 13; text := "user exists" |};
     ErrUserNotFound := {| addr := 4; text := "user not found" |};
     isEmail := has_at |}.

Definition sample_auth : Auth := {| Auth_log := []; Auth_tokenTTL := 3600 |}.

Definition alice : models_User :=
  {| User_ID := 7; User_Email := "alice@example.com";
     User_PassHash := bytes_of "$2a$10$hash-of-secret1" |}.

Definition sample_app : models_App :=
  {| App_ID := 1; App_Name := "test"; App_Secret := "test-secret" |}.

(** Everything succeeds: [alice] is found and is an admin, the password
    matches, the app exists, a token is signed, a new user gets ID 8. *)
Definition all_fine : answers :=
  {| on_User := (alice, None);
     on_IsAdmin := (true, None);
     on_SaveUser := (8, None);
     on_App := (sample_app, None);
     on_CompareHashAndPassword := None;
     on_GenerateFromPassword := (bytes_of "$2a$10$fresh", None);
     on_NewToken := ("signed.jwt.token", None) |}.

(** [bcrypt.ErrMismatchedHashAndPassword] *)
Definition bcrypt_ErrMismatchedHashAndPassword : sentinel :=
  {| addr := 21;
     text := "crypto/bcrypt: hashedPassword is not the hash of the given password" |}.

Definition zero_User : models_User :=
  {| User_ID := 0; User_Email := ""; User_PassHash := [] |}.

(** The store does not know the user ID, and says so with
    [storage.ErrUserNotFound]. *)
Definition unknown_user_id : answers :=
  {| on_User := (zero_User, Some (errorString
                   (@storage_ErrUserNotFound sample_externals)));
     on_IsAdmin := (false, Some (errorString
                      (@storage_ErrUserNotFound sample_externals)));
     on_SaveUser := on_SaveUser all_fine;
     on_App := on_App all_fine;
     on_CompareHashAndPassword := None;
     on_GenerateFromPassword := on_GenerateFromPassword all_fine;
     on_NewToken := on_NewToken all_fine |}.

(** The store answers [IsAdmin] with [storage.ErrAppNotFound]. *)
Definition app_not_found_on_IsAdmin : answers :=
  {| on_User := on_User all_fine;
     on_IsAdmin := (false, Some (errorString
                      (@storage_ErrAppNotFound sample_externals)));
     on_SaveUser := on_SaveUser all_fine;
     on_App := on_App all_fine;
     on_CompareHashAndPassword := None;
     on_GenerateFromPassword := on_GenerateFromPassword all_fine;
     on_NewToken := on_NewToken all_fine |}.

(** The password is not the one hashed. *)
Definition wrong_password : answers :=
  {| on_User := on_User all_fine;
     on_IsAdmin := on_IsAdmin all_fine;
     on_SaveUser := on_SaveUser all_fine;
     on_App := on_App all_fine;
     on_CompareHashAndPassword :=
       Some (errorString bcrypt_ErrMismatchedHashAndPassword);
     on_GenerateFromPassword := on_GenerateFromPassword all_fine;
     on_NewToken := on_NewToken all_fine |}.

(** A [UserSaver] that reports a taken email with the sentinel of package
    [services/auth] instead of the one of package [storage]. *)
Definition saver_with_the_core_sentinel : answers :=
  {| on_User := on_User all_fine;
     on_IsAdmin := on_IsAdmin all_fine;
     on_SaveUser := (0, Some (errorString ErrUserExists));
     on_App := on_App all_fine;
     on_CompareHashAndPassword := None;
     on_GenerateFromPassword := on_GenerateFromPassword all_fine;
     on_NewToken := on_NewToken all_fine |}.

(** The app store does not know the app. *)
Definition unknown_app : answers :=
  {| on_User := on_User all_fine;
     on_IsAdmin := on_IsAdmin all_fine;
     on_SaveUser := on_SaveUser all_fine;
     on_App := ({| App_ID := 0; App_Name := ""; App_Secret := "" |},
                Some (errorString (@storage_ErrAppNotFound sample_externals)));
     on_CompareHashAndPassword := None;
     on_GenerateFromPassword := on_GenerateFromPassword all_fine;
     on_NewToken := on_NewToken all_fine |}.

(** [bcrypt.ErrPasswordTooLong] *)
Definition bcrypt_ErrPasswordTooLong : sentinel :=
  {| addr := 22; text := "bcrypt: password length exceeds 72 bytes" |}.

(** Hashing fails. *)
Definition hash_failure : answers :=
  {| on_User := on_User all_fine;
     on_IsAdmin := on_IsAdmin all_fine;
     on_SaveUser := on_SaveUser all_fine;
     on_App := on_App all_fine;
     on_CompareHashAndPassword := None;
     on_GenerateFromPassword :=
       ([], Some (errorString bcrypt_ErrPasswordTooLong));
     on_NewToken := on_NewToken all_fine |}.

(** The user store is out of reach. *)
Definition sql_ErrConnDone : sentinel :=
  {| addr := 31; text := "sql: connection is already closed" |}.

Definition user_store_down : answers :=
  {| on_User := (zero_User, Some (errorString sql_ErrConnDone));
     on_IsAdmin := (false, Some (errorString sql_ErrConnDone));
     on_SaveUser := (0, Some (errorString sql_ErrConnDone));
     on_App := on_App all_fine;
     on_CompareHashAndPassword := None;
     on_GenerateFromPassword := on_GenerateFromPassword all_fine;
     on_NewToken := on_NewToken all_fine |}.

(** The issuer cannot sign, and hands back a string next to its error. *)
Definition jwt_ErrInvalidKey : sentinel :=
  {| addr := 32; text := "key is invalid" |}.

Definition issuer_failure : answers :=
  {| on_User := on_User all_fine;
     on_IsAdmin := on_IsAdmin all_fine;
     on_SaveUser := on_SaveUser all_fine;
     on_App := on_App all_fine;
     on_CompareHashAndPassword := None;
     on_GenerateFromPassword := on_GenerateFromPassword all_fine;
     on_NewToken := ("partial", Some (errorString jwt_ErrInvalidKey)) |}.

(** The answers of a scripted environment of package [grpcapp]. *)
Record app_answers : Type :=
  { on_NewServer : grpc_Server;
    on_Listen : net_Listener * option error;
    on_Serve : option error }.

Definition scripted_app (w : app_answers) : oracle app_call app_ret unit :=
  fun c s =>
    (match c return app_ret c with
     | grpc_NewServer => on_NewServer w
     | ssov1_RegisterAuthServer _ _ => tt
     | net_Listen _ _ => on_Listen w
     | Server_Serve _ _ => on_Serve w
     | Server_GracefulStop _ => tt
     | app_Log _ _ _ _ => tt
     end, s).

Definition sample_App : grpcapp_App :=
  {| App_log := []; App_gRPCServer := 1; App_port := 44044 |}.

Definition listener_44044 : net_Listener := {| Listener_Addr := "[::]:44044" |}.

(** The port is taken. *)
Definition syscall_EADDRINUSE : sentinel :=
  {| addr := 41; text := "address already in use" |}.

Definition port_taken : app_answers :=
  {| on_NewServer := 1;
     on_Listen := ({| Listener_Addr := "" |},
                   Some (errorString syscall_EADDRINUSE));
     on_Serve := None |}.

(** The server listens, serves, and is stopped gracefully: [Serve] returns
    nil. *)
Definition served_until_stopped : app_answers :=
  {| on_NewServer := 1;
     on_Listen := (listener_44044, None);
     on_Serve := None |}.

(** The three handlers with [sample_auth] behind them. *)
Definition sample_Login (req : LoginRequest) :=
  served (H := sample_externals) sample_auth
    (serverAPI_Login (H := sample_externals) req).
Definition sample_Register (req : RegisterRequest) :=
  served (H := sample_externals) sample_auth
    (serverAPI_Register (H := sample_externals) req).
Definition sample_IsAdmin (req : IsAdminRequest) :=
  served (H := sample_externals) sample_auth
    (serverAPI_IsAdmin (H := sample_externals) req).

Definition login_alice : LoginRequest :=
  {| LoginRequest_Email := "alice@example.com";
     LoginRequest_Password := "secret1";
     LoginRequest_AppId := 1 |}.

Definition register_bob : RegisterRequest :=
  {| RegisterRequest_Email := "bob@example.com";
     RegisterRequest_Password := "secret1" |}.

Definition is_admin_7 : IsAdminRequest := {| IsAdminRequest_UserId := 7 |}.

(** * Properties *)

(** ** Events and traces *)

Lemma core_call_eq_dec (x y : core_call) : {x = y} + {x <> y}.
Proof.
  assert (Hb : forall a b : bytes, {a = b} + {a <> b})
    by (apply list_eq_dec, Byte.byte_eq_dec).
  assert (Hattr : forall a b : slog_Attr, {a = b} + {a <> b})
    by (decide equality; auto using string_dec, Z.eq_dec, bool_dec).
  assert (Hl : forall a b : Logger, {a = b} + {a <> b})
    by (apply list_eq_dec, Hattr).
  assert (Harg : forall a b : slog_arg, {a = b} + {a <> b})
    by (decide equality; auto using string_dec).
  assert (Hu : forall a b : models_User, {a = b} + {a <> b})
    by (decide equality; auto using string_dec, Z.eq_dec).
  assert (Ha : forall a b : models_App, {a = b} + {a <> b})
    by (decide equality; auto using string_dec, Z.eq_dec).
  decide equality; auto using string_dec, Z.eq_dec, list_eq_dec.
  decide equality.
Defined.

(** Two records of the same call carry the same answer. *)
Lemma Ev_answer (c : core_call) (r r' : core_ret c) :
  Ev c r = Ev c r' -> r = r'.
Proof. apply inj_pair2_eq_dec, core_call_eq_dec. Qed.

Lemma Ev_call {C : Type} {R : C -> Type} (c c' : C) (r : R c) (r' : R c') :
  Ev c r = Ev c' r' -> c = c'.
Proof. intros E. exact (f_equal (@projT1 _ _) E). Qed.

Lemma split_cons {A : Type} (x : A) l pre e post :
  x :: l = (pre ++ e :: post)%list ->
  (pre = [] /\ x = e /\ l = post) \/
  (exists pre', pre = x :: pre' /\ l = (pre' ++ e :: post)%list).
Proof.
  destruct pre as [|y pre]; cbn; intros E; injection E as -> ->; eauto.
Qed.

Lemma split_nil {A : Type} (pre : list A) e post :
  [] = (pre ++ e :: post)%list -> False.
Proof. destruct pre; discriminate. Qed.

(** Running a sequence runs its parts one after the other: the traces are
    joined and the state is handed on. *)
Lemma run_bind {C : Type} {R : C -> Type} {St A B : Type}
  (o : oracle C R St) (p : prog C R A) (f : A -> prog C R B) (s : St) :
  run o (bind p f) s =
  let '(a, tr1, s1) := run o p s in
  let '(b, tr2, s2) := run o (f a) s1 in
  (b, (tr1 ++ tr2)%list, s2).
Proof.
  revert s. induction p as [a | c k IH]; intros s; cbn [run bind].
  - destruct (run o (f a) s) as [[b tr2] s2]. reflexivity.
  - destruct (o c s) as [r s1]. rewrite IH.
    destruct (run o (k r) s1) as [[a tr1] s2].
    destruct (run o (f a) s2) as [[b tr2] s3]. reflexivity.
Qed.

(** The environment a handler sees when the interface is implemented by
    [impl] over the environment [o]. *)
Lemma result_of_link {C1 : Type} {R1 : C1 -> Type} {C2 : Type}
  {R2 : C2 -> Type} {St A : Type} (o : oracle C2 R2 St)
  (impl : forall c : C1, prog C2 R2 (R1 c)) (p : prog C1 R1 A) (s : St) :
  result_of o (link impl p) s =
  result_of (fun c s0 => (result_of o (impl c) s0, snd (run o (impl c) s0)))
    p s.
Proof.
  unfold result_of. revert s.
  induction p as [a | c k IH]; intros s; cbn [link run]; [reflexivity|].
  rewrite run_bind.
  destruct (run o (impl c) s) as [[r tr1] s1]. cbn [fst snd].
  specialize (IH r s1).
  destruct (run o (link impl (k r)) s1) as [[b tr2] s2].
  destruct (run _ (k r) s1) as [[b' tr2'] s2'].
  cbn [fst snd] in *. exact IH.
Qed.

(** Wrapping with [%w] keeps the cause and its kind, and prepends the
    context to the text. *)
Lemma errors_Is_fmt_Errorf (op : string) (err : error) (target : sentinel) :
  errors_Is (fmt_Errorf op err) target = errors_Is err target.
Proof. reflexivity. Qed.

Lemma errors_Is_sentinel (e target : sentinel) :
  errors_Is e target = true <-> addr e = addr target.
Proof. cbn. apply Pos.eqb_eq. Qed.

(** Peel the calls of a run one by one, asking the environment [o]. *)
Ltac answer o :=
  match goal with
  | |- context [o ?c ?s] =>
      let r := fresh "r" in
      let s' := fresh "s" in
      destruct (o c s) as [r s']; cbn in r
  | r : (_ * _)%type |- _ => destruct r
  | r : option error |- _ => destruct r
  | r : unit |- _ => destruct r
  | |- context [if ?b then _ else _] =>
      first
        [ let v := eval vm_compute in b in
          match v with true => idtac | false => idtac end;
          change b with v; cbv iota
        | destruct b eqn:? ]
  end.

Ltac paths o :=
  unfold trace_of, result_of, served;
  repeat first
    [ progress cbn [run bind link Auth_impl]
    | rewrite errors_Is_fmt_Errorf
    | progress unfold Auth_Login, Auth_RegisterNewUser, Auth_IsAdmin,
        Logger_Info, Logger_Warn, Logger_Error, call
    | answer o ];
  cbn [fst snd].

(** Find where an event sits in a trace that is written out. *)
Ltac walk E :=
  repeat match type of E with
  | _ :: _ = (_ ++ _ :: _)%list =>
      apply split_cons in E; destruct E as [(-> & E & _) | (? & -> & E)]
  | [] = (_ ++ _ :: _)%list => destruct (split_nil _ _ _ E)
  end.

(** Use that an event is a member of a trace that is written out. *)
Ltac member E :=
  cbn [In] in E;
  repeat match type of E with
  | _ \/ _ => destruct E as [E | E]
  | False => destruct E
  end;
  try discriminate E;
  try (let Ec := fresh "Ec" in
       pose proof (Ev_call _ _ _ _ E) as Ec; inversion Ec; subst; clear Ec;
       apply Ev_answer in E; try discriminate E; inversion E; subst).

Section CoreProperties.
Context `{Externals}.
Context {St : Type} (o : oracle core_call core_ret St).

(** C1: in every execution of [Login], a call of [jwt.NewToken] comes after
    the user was found by the email and after
    [bcrypt.CompareHashAndPassword] accepted the password against that
    user's stored hash; when the lookup or the comparison fails, [Login]
    returns an error with the empty token and [jwt.NewToken] is not
    called. *)
Theorem Login_token_only_after_password_verified
  (s : St) (a : Auth) (email password : string) (appID : Z) :
  let tr := trace_of o (Auth_Login a email password appID) s in
  let res := result_of o (Auth_Login a email password appID) s in
  (forall pre user app ttl r post,
      tr = (pre ++ Ev (jwt_NewToken user app ttl) r :: post)%list ->
      In (Ev (userProvider_User email) (user, None)) pre /\
      In (Ev (bcrypt_CompareHashAndPassword
                (User_PassHash user) (bytes_of password)) None) pre) /\
  (forall u err,
      In (Ev (userProvider_User email) (u, Some err)) tr ->
      (exists e, res = ("", Some e)) /\
      forall user app ttl r, ~ In (Ev (jwt_NewToken user app ttl) r) tr) /\
  (forall hash pw err,
      In (Ev (bcrypt_CompareHashAndPassword hash pw) (Some err)) tr ->
      (exists e, res = ("", Some e)) /\
      forall user app ttl r, ~ In (Ev (jwt_NewToken user app ttl) r) tr).
Proof.
  cbv zeta. split; [|split].
  - intros pre user app ttl r post. paths o; intros E; walk E;
      try discriminate E.
    all: apply Ev_call in E; injection E as <- <- <-; cbn [In]; auto 10.
  - intros u err. paths o; intros E; member E.
    all: split; [eauto | intros ? ? ? ? E'; member E'].
  - intros hash pw err. paths o; intros E; member E.
    all: split; [eauto | intros ? ? ? ? E'; member E'].
Qed.

(** C9: in every execution of [Login], the app store is asked only after the
    user was found and the password accepted; with an unknown email or a
    wrong password [Login] returns [ErrInvalidCredentials] (wrapped) and
    the app store is never asked. *)
Theorem Login_app_store_only_after_authentication
  (s : St) (a : Auth) (email password : string) (appID : Z) :
  let tr := trace_of o (Auth_Login a email password appID) s in
  let res := result_of o (Auth_Login a email password appID) s in
  let denied := fmt_Errorf "services.auth.Login" ErrInvalidCredentials in
  (forall pre id r post,
      tr = (pre ++ Ev (appProvider_App id) r :: post)%list ->
      exists user,
        In (Ev (userProvider_User email) (user, None)) pre /\
        In (Ev (bcrypt_CompareHashAndPassword
                  (User_PassHash user) (bytes_of password)) None) pre) /\
  (forall u err,
      In (Ev (userProvider_User email) (u, Some err)) tr ->
      errors_Is err storage_ErrUserNotFound = true ->
      res = ("", Some denied) /\
      forall id r, ~ In (Ev (appProvider_App id) r) tr) /\
  (forall hash pw err,
      In (Ev (bcrypt_CompareHashAndPassword hash pw) (Some err)) tr ->
      res = ("", Some denied) /\
      forall id r, ~ In (Ev (appProvider_App id) r) tr).
Proof.
  cbv zeta. split; [|split].
  - intros pre id r post. paths o; intros E; walk E; try discriminate E.
    all: eexists; cbn [In]; eauto 10.
  - intros u err. paths o; intros E; member E; intros Hnf; try congruence.
    all: split; [reflexivity | intros ? ? E'; member E'].
  - intros hash pw err. paths o; intros E; member E.
    all: split; [reflexivity | intros ? ? E'; member E'].
Qed.

(** C10: an operation of the core that returns a non-nil error returns the
    zero value with it: the empty token, user ID 0, [false]. *)
Theorem core_error_comes_with_zero_value
  (s : St) (a : Auth) (email password : string) (appID userID : Z) :
  (snd (result_of o (Auth_Login a email password appID) s) <> None ->
   fst (result_of o (Auth_Login a email password appID) s) = "") /\
  (snd (result_of o (Auth_RegisterNewUser a email password) s) <> None ->
   fst (result_of o (Auth_RegisterNewUser a email password) s) = 0) /\
  (snd (result_of o (Auth_IsAdmin a userID) s) <> None ->
   fst (result_of o (Auth_IsAdmin a userID) s) = false).
Proof.
  repeat split; paths o; intros Herr; try reflexivity; now destruct Herr.
Qed.

(** C3: when the store fails on [IsAdmin], the core answers [false] with
    [ErrInvalidAppID] (wrapped) if the store's error matches
    [storage.ErrAppNotFound], and with the store's own error wrapped in the
    operation name otherwise; [storage.ErrUserNotFound] is among the
    errors passed on that way. *)
Theorem IsAdmin_maps_only_app_not_found
  (s : St) (a : Auth) (userID : Z) (isAdmin : bool) (err : error) :
  In (Ev (userProvider_IsAdmin userID) (isAdmin, Some err))
     (trace_of o (Auth_IsAdmin a userID) s) ->
  let res := result_of o (Auth_IsAdmin a userID) s in
  let op := "services.auth.IsAdmin" in
  (errors_Is err storage_ErrAppNotFound = true ->
   res = (false, Some (fmt_Errorf op ErrInvalidAppID))) /\
  (errors_Is err storage_ErrAppNotFound = false ->
   res = (false, Some (fmt_Errorf op err)) /\
   errors_Unwrap (fmt_Errorf op err) = Some err /\
   Error (fmt_Errorf op err) = op ++ ": " ++ Error err /\
   forall target, errors_Is (fmt_Errorf op err) target = errors_Is err target) /\
  (addr storage_ErrUserNotFound <> addr storage_ErrAppNotFound ->
   err = errorString storage_ErrUserNotFound ->
   res = (false, Some (fmt_Errorf op storage_ErrUserNotFound))).
Proof.
  cbv zeta. paths o; intros E; member E.
  - repeat split; try congruence.
    intros Hne ->.
    match goal with
    | Hm : errors_Is _ _ = true |- _ => apply errors_Is_sentinel in Hm
    end.
    contradiction.
  - repeat split; try congruence.
Qed.

End CoreProperties.

(** ** The request validator *)

Section ValidatorProperties.
Context `{Externals}.

Lemma first_failing_None (ts : list tag) (v : field_value) :
  first_failing ts v = None <-> forallb (fun t => tag_holds t v) ts = true.
Proof.
  induction ts as [|t ts IH]; cbn; [tauto|].
  destruct (tag_holds t v); cbn; [exact IH | split; discriminate].
Qed.

Lemma first_failing_Some (ts : list tag) (v : field_value) (t : tag) :
  first_failing ts v = Some t -> In t ts /\ tag_holds t v = false.
Proof.
  induction ts as [|t' ts IH]; cbn; [discriminate|].
  destruct (tag_holds t' v) eqn:Ht.
  - intros E. destruct (IH E). auto.
  - intros [= <-]. auto.
Qed.

Lemma validate_field_nil (f : field) :
  validate_field f = [] <-> field_ok f = true.
Proof.
  unfold validate_field, field_ok. rewrite <- first_failing_None.
  destruct (first_failing (field_tags f) (field_val f));
    split; congruence.
Qed.

Lemma validate_Struct_None (fs : list field) :
  validate_Struct fs = None <-> forallb field_ok fs = true.
Proof.
  unfold validate_Struct.
  assert (E : flat_map validate_field fs = [] <-> forallb field_ok fs = true).
  { induction fs as [|f fs IH]; cbn; [tauto|].
    rewrite andb_true_iff, <- IH, <- validate_field_nil.
    split.
    - intros E. apply app_eq_nil in E. exact E.
    - intros [-> ->]. reflexivity. }
  rewrite <- E. destruct (flat_map validate_field fs); split; congruence.
Qed.

Lemma validate_field_reports (f : field) :
  Forall (reports [f]) (validate_field f).
Proof.
  unfold validate_field.
  destruct (first_failing (field_tags f) (field_val f)) as [t|] eqn:E;
    constructor; [|constructor].
  apply first_failing_Some in E. destruct E as [Hin Hf].
  exists f, t. cbn. auto.
Qed.

Lemma flat_map_reports (fs : list field) :
  Forall (reports fs) (flat_map validate_field fs).
Proof.
  induction fs as [|f fs IH]; cbn; [constructor|].
  apply Forall_app. split.
  - eapply Forall_impl; [|apply validate_field_reports].
    intros fe (f' & t & Hin & Hrest). exists f', t. split; [|exact Hrest].
    destruct Hin as [<- | []]. now left.
  - eapply Forall_impl; [|exact IH].
    intros fe (f' & t & Hin & Hrest). exists f', t. split; [|exact Hrest].
    now right.
Qed.

Lemma RuneCount_empty : utf8_RuneCountInString "" = 0.
Proof. reflexivity. Qed.

Lemma count_runes_nonneg (l : list Z) (skip : nat) : 0 <= count_runes skip l.
Proof.
  revert skip. induction l as [|c l IH]; intros skip; cbn [count_runes]; [lia|].
  destruct skip as [|k]; [|apply IH].
  specialize (IH (Nat.pred (rune_width c l))). lia.
Qed.

(** A string that is not empty has at least one rune. *)
Lemma RuneCount_pos (s : string) :
  s <> "" -> 0 < utf8_RuneCountInString s.
Proof.
  destruct s as [|c s]; [congruence|]. intros _.
  unfold utf8_RuneCountInString, byte_values. cbn [list_ascii_of_string map].
  cbn [count_runes].
  pose proof (count_runes_nonneg
                (map (fun c0 => Z.of_N (N_of_ascii c0)) (list_ascii_of_string s))
                (Nat.pred (rune_width (Z.of_N (N_of_ascii c))
                   (map (fun c0 => Z.of_N (N_of_ascii c0))
                      (list_ascii_of_string s))))).
  lia.
Qed.

(** On a string of ASCII bytes the runes are the bytes. *)
Lemma RuneCount_ascii_length (s : string) :
  Forall (fun c => c < 0x80) (byte_values s) ->
  utf8_RuneCountInString s = Z.of_nat (String.length s).
Proof.
  unfold utf8_RuneCountInString, byte_values.
  induction s as [|c s IH]; [reflexivity|].
  cbn [list_ascii_of_string map String.length]. intros Hall.
  apply Forall_cons_iff in Hall. destruct Hall as [Hc Hs].
  cbn [count_runes]. unfold rune_width, utf8_first.
  apply Z.ltb_lt in Hc. rewrite Hc. cbn [Nat.pred].
  rewrite IH by exact Hs. lia.
Qed.

(** C5: the validator accepts a Login input exactly when the email is not
    empty and passes the [email] check, the password is not empty and has
    at least 6 characters, and the app ID is positive; a Register input
    exactly when the email is as above and the password has 6 to 32
    characters; an IsAdmin input exactly when the user ID is positive.
    Otherwise [validate.Struct] returns a non-empty list of violations, each
    naming a field of the struct and a tag of that field that fails, and
    [formatValidationErrors] turns it into one line per violation. *)
Theorem validator_accepts_exactly_the_wellformed :
  (forall d : LoginRequestValidation,
      validate_Struct (LoginRequestValidation_fields d) = None <->
      LoginRequestValidation_Email d <> "" /\
      isEmail (LoginRequestValidation_Email d) = true /\
      LoginRequestValidation_Password d <> "" /\
      6 <= utf8_RuneCountInString (LoginRequestValidation_Password d) /\
      0 < LoginRequestValidation_AppId d) /\
  (forall d : RegisterRequestValidation,
      validate_Struct (RegisterRequestValidation_fields d) = None <->
      RegisterRequestValidation_Email d <> "" /\
      isEmail (RegisterRequestValidation_Email d) = true /\
      6 <= utf8_RuneCountInString (RegisterRequestValidation_Password d) <= 32) /\
  (forall d : IsAdminRequestValidation,
      validate_Struct (IsAdminRequestValidation_fields d) = None <->
      0 < IsAdminRequestValidation_UserId d) /\
  (forall (fs : list field) (err : validation_error),
      validate_Struct fs = Some err ->
      exists errs,
        err = ValidationErrors errs /\ errs <> [] /\
        Forall (reports fs) errs /\
        formatValidationErrors err =
          map (fun fe =>
                 "Field '" ++ Field fe ++ "' failed validation: " ++ Tag fe)
              errs).
Proof.
  split; [|split; [|split]].
  - intros d. rewrite validate_Struct_None. cbn.
    rewrite !andb_true_iff, !negb_true_iff, !String.eqb_neq, Z.eqb_neq,
      Z.leb_le, Z.ltb_lt.
    intuition lia.
  - intros d. rewrite validate_Struct_None. cbn.
    rewrite !andb_true_iff, !negb_true_iff, !String.eqb_neq, !Z.leb_le.
    pose proof (RuneCount_pos (RegisterRequestValidation_Password d)).
    pose proof RuneCount_empty.
    split; [intuition lia|].
    intros (He & Hm & Hlo & Hhi). repeat split; auto.
    intros E. rewrite E, RuneCount_empty in Hlo. lia.
  - intros d. rewrite validate_Struct_None. cbn.
    rewrite !andb_true_iff, !negb_true_iff, Z.eqb_neq, Z.ltb_lt.
    intuition lia.
  - intros fs err. unfold validate_Struct.
    pose proof (flat_map_reports fs) as Hr.
    destruct (flat_map validate_field fs) as [|fe errs] eqn:E; [discriminate|].
    intros [= <-]. exists (fe :: errs). repeat split; [discriminate|exact Hr].
Qed.

End ValidatorProperties.

(** ** The handlers, with the core behind them *)

Ltac rpc o :=
  unfold serverAPI_Login, serverAPI_Register, serverAPI_IsAdmin;
  match goal with
  | |- context [validate_Struct ?fs] => destruct (validate_Struct fs) eqn:?
  end;
  paths o.

Section TransportProperties.
Context `{Externals}.
Context {St : Type} (o : oracle core_call core_ret St).

(** In a run: once the lookup was answered with an error that matches
    [storage.ErrUserNotFound], or the comparison with an error, the core
    returns [ErrInvalidCredentials] wrapped in the operation name and the
    handler answers [InvalidArgument] with "invalid email or password". *)
Lemma Login_refusals_in_a_run
  (s : St) (a : Auth) (req : LoginRequest) :
  let email := LoginRequest_Email req in
  let core_run := Auth_Login a email (LoginRequest_Password req)
                    (LoginRequest_AppId req) in
  let rpc_run := served a (serverAPI_Login req) in
  let denied := fmt_Errorf "services.auth.Login" ErrInvalidCredentials in
  let refused := status_Error codes_InvalidArgument
                   "invalid email or password" in
  (forall u err,
      In (Ev (userProvider_User email) (u, Some err)) (trace_of o core_run s) ->
      errors_Is err storage_ErrUserNotFound = true ->
      result_of o core_run s = ("", Some denied)) /\
  (forall hash pw err,
      In (Ev (bcrypt_CompareHashAndPassword hash pw) (Some err))
         (trace_of o core_run s) ->
      result_of o core_run s = ("", Some denied)) /\
  errors_Is denied ErrInvalidCredentials = true /\
  (forall u err,
      In (Ev (userProvider_User email) (u, Some err)) (trace_of o rpc_run s) ->
      errors_Is err storage_ErrUserNotFound = true ->
      result_of o rpc_run s = (None, Some refused)) /\
  (forall hash pw err,
      In (Ev (bcrypt_CompareHashAndPassword hash pw) (Some err))
         (trace_of o rpc_run s) ->
      result_of o rpc_run s = (None, Some refused)).
Proof.
  cbv zeta. split; [|split; [|split; [|split]]].
  - intros u err. paths o; intros E; member E; congruence.
  - intros hash pw err. paths o; intros E; member E; reflexivity.
  - reflexivity.
  - intros u err. rpc o; intros E; member E; intros Hnf; try congruence.
    all: reflexivity.
  - intros hash pw err. rpc o; intros E; member E; reflexivity.
Qed.


(** C4: the code does not do what the claim says. A valid IsAdmin request
    for which the store's error matches [storage.ErrAppNotFound] makes the
    core return [ErrInvalidAppID] (wrapped); the handler tests for
    [auth.ErrUserNotFound] only, so unless that is the very same sentinel
    the caller gets [Internal] with "internal server error", not [NotFound]
    with "user not found". *)
Theorem IsAdmin_InvalidAppID_reaches_the_caller_as_Internal
  (s : St) (a : Auth) (req : IsAdminRequest) (isAdmin : bool) (err : error) :
  addr ErrUserNotFound <> addr ErrInvalidAppID ->
  In (Ev (userProvider_IsAdmin (IsAdminRequest_UserId req))
         (isAdmin, Some err))
     (trace_of o (served a (serverAPI_IsAdmin req)) s) ->
  errors_Is err storage_ErrAppNotFound = true ->
  result_of o (Auth_IsAdmin a (IsAdminRequest_UserId req)) s =
    (false, Some (fmt_Errorf "services.auth.IsAdmin" ErrInvalidAppID)) /\
  result_of o (served a (serverAPI_IsAdmin req)) s =
    (None, Some (status_Error codes_Internal internalServerError)).
Proof.
  intros Hne.
  assert (Hk : errors_Is ErrInvalidAppID ErrUserNotFound = false).
  { apply not_true_is_false. intros E. apply errors_Is_sentinel in E.
    apply Hne. symmetry. exact E. }
  rpc o; intros E; member E; intros Hm; try congruence; auto.
Qed.

(** The same happens to an unknown user ID that the store reports with
    [storage.ErrUserNotFound]: the core matches [storage.ErrAppNotFound]
    only, wraps the error, and the handler does not find
    [auth.ErrUserNotFound] in it. *)
Lemma IsAdmin_unknown_user_reaches_the_caller_as_Internal
  (s : St) (a : Auth) (req : IsAdminRequest) (isAdmin : bool) :
  addr storage_ErrUserNotFound <> addr storage_ErrAppNotFound ->
  addr storage_ErrUserNotFound <> addr ErrUserNotFound ->
  In (Ev (userProvider_IsAdmin (IsAdminRequest_UserId req))
         (isAdmin, Some (errorString storage_ErrUserNotFound)))
     (trace_of o (served a (serverAPI_IsAdmin req)) s) ->
  result_of o (served a (serverAPI_IsAdmin req)) s =
    (None, Some (status_Error codes_Internal internalServerError)).
Proof.
  intros Hne1 Hne2.
  rpc o; intros E; member E; try reflexivity.
  all: match goal with
       | Hm : errors_Is (errorString _) _ = true |- _ =>
           apply errors_Is_sentinel in Hm; contradiction
       end.
Qed.

(** What the Register handler answers, from what the core returns. *)
Lemma served_Register_result (s : St) (a : Auth) (req : RegisterRequest) :
  validate_Struct (RegisterRequestValidation_fields (Register_data req))
    = None ->
  result_of o (served a (serverAPI_Register req)) s =
  match result_of o (Auth_RegisterNewUser a (RegisterRequest_Email req)
                       (RegisterRequest_Password req)) s with
  | (_, Some err) =>
      if errors_Is err ErrUserExists
      then (None, Some (status_Error codes_AlreadyExists "user already exists"))
      else (None, Some (status_Error codes_Internal internalServerError))
  | (userID, None) => (Some {| RegisterResponse_UserId := userID |}, None)
  end.
Proof.
  intros Hv. unfold served, serverAPI_Register. rewrite Hv.
  rewrite result_of_link.
  change (result_of o (Auth_RegisterNewUser a (RegisterRequest_Email req)
                         (RegisterRequest_Password req)) s)
    with (@result_of core_call core_ret St
            (auth_ret (Auth_call_RegisterNewUser (RegisterRequest_Email req)
                         (RegisterRequest_Password req)))
            o
            (Auth_impl a
               (Auth_call_RegisterNewUser (RegisterRequest_Email req)
                  (RegisterRequest_Password req)))
            s).
  unfold result_of, call. cbn [run bind fst snd].
  destruct (fst (fst (run o (Auth_impl a _) s))) as [userID [err|]];
    [destruct (errors_Is err ErrUserExists)|]; reflexivity.
Qed.

(** What the core returns when the environment hashes the password and
    answers every save in one way. *)
Lemma Register_core_when_save_fails
  (s : St) (a : Auth) (email password : string) (err : error) :
  hashing_works o password ->
  save_fails_with o email err ->
  result_of o (Auth_RegisterNewUser a email password) s =
  (0, Some (if errors_Is err storage_ErrUserExists
            then fmt_Errorf "services.auth.RegisterNewUser" ErrUserExists
            else fmt_Errorf "services.auth.RegisterNewUser" err)).
Proof.
  intros Hhash Hsave.
  unfold result_of, Auth_RegisterNewUser, Logger_Info, Logger_Warn,
    Logger_Error, call.
  cbn [run bind]. destruct (o _ s) as [[] s1]. cbn [run bind].
  destruct (Hhash s1) as (hash & Hh).
  destruct (o (bcrypt_GenerateFromPassword _ _) s1) as [r s2].
  cbn in r, Hh. subst r. cbn [run bind].
  destruct (Hsave s2 hash) as (id & Hs).
  destruct (o (userSaver_SaveUser email hash) s2) as [r s3].
  cbn in r, Hs. subst r.
  destruct (errors_Is err storage_ErrUserExists); cbn [run bind];
    destruct (o _ s3) as [[] s4]; reflexivity.
Qed.

Lemma Register_core_when_save_assigns
  (s : St) (a : Auth) (email password : string) (id : Z) :
  hashing_works o password ->
  save_assigns o email id ->
  result_of o (Auth_RegisterNewUser a email password) s = (id, None).
Proof.
  intros Hhash Hsave.
  unfold result_of, Auth_RegisterNewUser, Logger_Info, Logger_Warn,
    Logger_Error, call.
  cbn [run bind]. destruct (o _ s) as [[] s1]. cbn [run bind].
  destruct (Hhash s1) as (hash & Hh).
  destruct (o (bcrypt_GenerateFromPassword _ _) s1) as [r s2].
  cbn in r, Hh. subst r. cbn [run bind].
  pose proof (Hsave s2 hash) as Hs.
  destruct (o (userSaver_SaveUser email hash) s2) as [r s3].
  cbn in r, Hs. subst r. cbn [run bind].
  destruct (o _ s3) as [[] s4]. reflexivity.
Qed.

(** C6 (as amended): when [SaveUser] fails with an error that matches
    [storage.ErrUserExists], the core returns [ErrUserExists] (wrapped) and
    the handler answers [AlreadyExists], "user already exists"; when it
    fails with any other error, the core passes that error on wrapped, and
    the handler answers [Internal] unless the error itself matches the
    core's own [ErrUserExists], in which case it answers [AlreadyExists]
    too; when it succeeds, the core and the handler return the ID the
    store assigned. This holds of a save seen in a run, and of every run
    against a store that answers the save that way once [bcrypt] has hashed
    the password. *)
Theorem Register_store_outcomes (s : St) (a : Auth) (req : RegisterRequest) :
  let email := RegisterRequest_Email req in
  let password := RegisterRequest_Password req in
  let core_run := Auth_RegisterNewUser a email password in
  let rpc_run := served a (serverAPI_Register req) in
  let op := "services.auth.RegisterNewUser" in
  let valid :=
    validate_Struct (RegisterRequestValidation_fields (Register_data req))
      = None in
  let exists_already :=
    (None : option RegisterResponse,
     Some (status_Error codes_AlreadyExists "user already exists")) in
  let internal :=
    (None : option RegisterResponse,
     Some (status_Error codes_Internal internalServerError)) in
  (forall hash id err,
      In (Ev (userSaver_SaveUser email hash) (id, Some err))
         (trace_of o core_run s) ->
      (errors_Is err storage_ErrUserExists = true ->
       result_of o core_run s = (0, Some (fmt_Errorf op ErrUserExists))) /\
      (errors_Is err storage_ErrUserExists = false ->
       result_of o core_run s = (0, Some (fmt_Errorf op err)))) /\
  (forall hash id,
      In (Ev (userSaver_SaveUser email hash) (id, None))
         (trace_of o core_run s) ->
      result_of o core_run s = (id, None)) /\
  (forall hash id err,
      In (Ev (userSaver_SaveUser email hash) (id, Some err))
         (trace_of o rpc_run s) ->
      (errors_Is err storage_ErrUserExists = true ->
       result_of o rpc_run s = exists_already) /\
      (errors_Is err storage_ErrUserExists = false ->
       errors_Is err ErrUserExists = false ->
       result_of o rpc_run s = internal) /\
      (errors_Is err storage_ErrUserExists = false ->
       errors_Is err ErrUserExists = true ->
       result_of o rpc_run s = exists_already)) /\
  (forall hash id,
      In (Ev (userSaver_SaveUser email hash) (id, None))
         (trace_of o rpc_run s) ->
      result_of o rpc_run s = (Some {| RegisterResponse_UserId := id |}, None)) /\
  (hashing_works o password ->
   (forall err,
       save_fails_with o email err ->
       (errors_Is err storage_ErrUserExists = true ->
        result_of o core_run s = (0, Some (fmt_Errorf op ErrUserExists)) /\
        (valid -> result_of o rpc_run s = exists_already)) /\
       (errors_Is err storage_ErrUserExists = false ->
        result_of o core_run s = (0, Some (fmt_Errorf op err)) /\
        (valid -> errors_Is err ErrUserExists = false ->
         result_of o rpc_run s = internal) /\
        (valid -> errors_Is err ErrUserExists = true ->
         result_of o rpc_run s = exists_already))) /\
   (forall id,
       save_assigns o email id ->
       result_of o core_run s = (id, None) /\
       (valid ->
        result_of o rpc_run s =
          (Some {| RegisterResponse_UserId := id |}, None)))).
Proof.
  cbv zeta. split; [|split; [|split; [|split]]].
  - intros hash id err. paths o; intros E; member E; split; congruence.
  - intros hash id. paths o; intros E; member E; reflexivity.
  - intros hash id err. rpc o; intros E; member E; repeat split; congruence.
  - intros hash id. rpc o; intros E; member E; reflexivity.
  - intros Hhash. split.
    + intros err Hsave.
      pose proof (Register_core_when_save_fails s a _ _ err Hhash Hsave)
        as Hcore.
      split; intros Hm; rewrite Hm in Hcore.
      * split; [exact Hcore|]. intros Hv.
        rewrite (served_Register_result s a req Hv), Hcore. reflexivity.
      * split; [exact Hcore|]. split; intros Hv Hk;
          rewrite (served_Register_result s a req Hv), Hcore,
            errors_Is_fmt_Errorf, Hk; reflexivity.
    + intros id Hsave.
      pose proof (Register_core_when_save_assigns s a _ _ id Hhash Hsave)
        as Hcore.
      split; [exact Hcore|]. intros Hv.
      rewrite (served_Register_result s a req Hv), Hcore. reflexivity.
Qed.

(** C7: a Login, Register or IsAdmin request that fails validation is
    answered with [InvalidArgument] by a handler that makes no call at all:
    not of the [Auth] interface, and so none of a store, of [bcrypt] or of
    [jwt.NewToken]. A password "ab", an app ID or user ID that is zero or
    negative, and an email the [email] check refuses each fail validation
    whatever the other fields are. *)
Theorem invalid_request_is_refused_before_the_core (a : Auth) :
  (forall req err,
      validate_Struct (LoginRequestValidation_fields (Login_data req))
        = Some err ->
      let st := validation_status (formatValidationErrors err) in
      Code st = codes_InvalidArgument /\
      serverAPI_Login req = Ret (None, Some st) /\
      forall s, run o (served a (serverAPI_Login req)) s
                = ((None, Some st), [], s)) /\
  (forall req err,
      validate_Struct (RegisterRequestValidation_fields (Register_data req))
        = Some err ->
      let st := validation_status (formatValidationErrors err) in
      Code st = codes_InvalidArgument /\
      serverAPI_Register req = Ret (None, Some st) /\
      forall s, run o (served a (serverAPI_Register req)) s
                = ((None, Some st), [], s)) /\
  (forall req err,
      validate_Struct (IsAdminRequestValidation_fields (IsAdmin_data req))
        = Some err ->
      let st := validation_status (formatValidationErrors err) in
      Code st = codes_InvalidArgument /\
      serverAPI_IsAdmin req = Ret (None, Some st) /\
      forall s, run o (served a (serverAPI_IsAdmin req)) s
                = ((None, Some st), [], s)) /\
  (forall req,
      LoginRequest_Password req = "ab" \/ LoginRequest_AppId req <= 0 \/
      isEmail (LoginRequest_Email req) = false ->
      validate_Struct (LoginRequestValidation_fields (Login_data req))
        <> None) /\
  (forall req,
      RegisterRequest_Password req = "ab" \/
      isEmail (RegisterRequest_Email req) = false ->
      validate_Struct (RegisterRequestValidation_fields (Register_data req))
        <> None) /\
  (forall req,
      IsAdminRequest_UserId req <= 0 ->
      validate_Struct (IsAdminRequestValidation_fields (IsAdmin_data req))
        <> None).
Proof.
  repeat match goal with |- _ /\ _ => split end.
  1-3: intros req err E; cbv zeta;
       unfold serverAPI_Login, serverAPI_Register, serverAPI_IsAdmin, served;
       rewrite E; repeat split.
  - intros req Hbad E. apply validate_Struct_None in E. cbn in E.
    rewrite !andb_true_iff, !negb_true_iff, Z.eqb_neq, Z.leb_le, Z.ltb_lt in E.
    destruct Hbad as [Hp | [Hi | He]].
    + rewrite Hp in E. cbn in E. lia.
    + lia.
    + destruct E as ((_ & E & _) & _). congruence.
  - intros req Hbad E. apply validate_Struct_None in E. cbn in E.
    rewrite !andb_true_iff, !negb_true_iff, !Z.leb_le in E.
    destruct Hbad as [Hp | He].
    + rewrite Hp in E. cbn in E. lia.
    + destruct E as ((_ & E & _) & _). congruence.
  - intros req Hbad E. apply validate_Struct_None in E. cbn in E.
    rewrite !andb_true_iff, !negb_true_iff, Z.eqb_neq, Z.ltb_lt in E. lia.
Qed.

End TransportProperties.

Section MapperProperties.
Context `{Externals}.

(** C8: for every error [e] and operation name [op], the wrapped error
    [fmt.Errorf("%s: %w", op, e)] has [e] as its cause, the text of [e]
    with the context in front, and matches exactly the sentinels [e]
    matches; each handler answers it, and an error wrapped in any other
    text, with the status and message it answers [e] with. *)
Theorem wrapping_does_not_change_the_mapping (e : error) (op : string) :
  errors_Unwrap (fmt_Errorf op e) = Some e /\
  Error (fmt_Errorf op e) = op ++ ": " ++ Error e /\
  (forall target, errors_Is (fmt_Errorf op e) target = errors_Is e target) /\
  (forall wrapped, wrapped = fmt_Errorf op e \/
                   (exists msg, wrapped = wrapError msg e) ->
    (forall req token register isAdmin,
        result_of (replying (token, Some wrapped) register isAdmin)
          (serverAPI_Login req) tt =
        result_of (replying (token, Some e) register isAdmin)
          (serverAPI_Login req) tt) /\
    (forall req userID login isAdmin,
        result_of (replying login (userID, Some wrapped) isAdmin)
          (serverAPI_Register req) tt =
        result_of (replying login (userID, Some e) isAdmin)
          (serverAPI_Register req) tt) /\
    (forall req b login register,
        result_of (replying login register (b, Some wrapped))
          (serverAPI_IsAdmin req) tt =
        result_of (replying login register (b, Some e))
          (serverAPI_IsAdmin req) tt)).
Proof.
  split; [reflexivity|]. split; [reflexivity|]. split; [reflexivity|].
  intros wrapped Hw.
  assert (Hk : forall target, errors_Is wrapped target = errors_Is e target)
    by (destruct Hw as [-> | [msg ->]]; reflexivity).
  repeat split; intros;
    unfold serverAPI_Login, serverAPI_Register, serverAPI_IsAdmin;
    match goal with
    | |- context [validate_Struct ?fs] => destruct (validate_Struct fs)
    end; try reflexivity;
    unfold result_of, call; cbn [run bind replying fst snd]; rewrite Hk;
    match goal with
    | |- context [errors_Is e ?t] => destruct (errors_Is e t)
    end; reflexivity.
Qed.

(** What the IsAdmin handler does map: for a valid request, an error of the
    [Auth] implementation that matches [auth.ErrUserNotFound] is answered
    [NotFound] with the message "user not found", and an error that does
    not match it is answered [Internal] with "internal server error". *)
Lemma IsAdmin_handler_maps_ErrUserNotFound_only
  (req : IsAdminRequest) (b : bool) (err : error)
  (login : string * option error) (register : Z * option error) :
  validate_Struct (IsAdminRequestValidation_fields (IsAdmin_data req)) = None ->
  let answer := result_of (replying login register (b, Some err))
                  (serverAPI_IsAdmin req) tt in
  (errors_Is err ErrUserNotFound = true ->
   answer = (None, Some (status_Error codes_NotFound "user not found"))) /\
  (errors_Is err ErrUserNotFound = false ->
   answer = (None, Some (status_Error codes_Internal internalServerError))).
Proof.
  intros Hv. cbv zeta. unfold serverAPI_IsAdmin. rewrite Hv.
  unfold result_of, call. cbn [run bind replying fst snd].
  split; intros ->; reflexivity.
Qed.

End MapperProperties.

(** ** Further properties of the operations *)

Section FurtherProperties.
Context `{Externals}.
Context {St : Type} (o : oracle core_call core_ret St).

(** X1: a login that fails at the lookup or at the password runs the same way
    whatever app ID was asked for: same result, same calls, same final
    state of the environment. *)
Theorem Login_unauthenticated_run_ignores_the_app
  (s : St) (a : Auth) (email password : string) (appID appID' : Z) :
  (exists u err,
      In (Ev (userProvider_User email) (u, Some err))
         (trace_of o (Auth_Login a email password appID) s)) \/
  (exists hash pw err,
      In (Ev (bcrypt_CompareHashAndPassword hash pw) (Some err))
         (trace_of o (Auth_Login a email password appID) s)) ->
  run o (Auth_Login a email password appID') s =
  run o (Auth_Login a email password appID) s.
Proof.
  intros [(u & err & E) | (hash & pw & err & E)]; revert E.
  all: paths o; intros E; member E; reflexivity.
Qed.

(** X2: when [jwt.NewToken] signs a token, [Login] returns that token with a
    nil error and the handler puts it in the response. *)
Theorem Login_returns_the_issued_token
  (s : St) (a : Auth) (req : LoginRequest)
  (user : models_User) (app : models_App) (ttl : Z) (token : string) :
  In (Ev (jwt_NewToken user app ttl) (token, None))
     (trace_of o (served a (serverAPI_Login req)) s) ->
  ttl = Auth_tokenTTL a /\
  result_of o (Auth_Login a (LoginRequest_Email req)
                 (LoginRequest_Password req) (LoginRequest_AppId req)) s =
    (token, None) /\
  result_of o (served a (serverAPI_Login req)) s =
    (Some {| LoginResponse_Token := token |}, None).
Proof.
  rpc o; intros E; member E; auto.
Qed.

(** X3: a failure of the app store is passed on wrapped in the operation name,
    no token is asked for, and the handler answers [Internal] unless the
    error itself matches [ErrInvalidCredentials]. *)
Theorem Login_app_store_failure_is_passed_on
  (s : St) (a : Auth) (req : LoginRequest) (app : models_App) (err : error) :
  In (Ev (appProvider_App (LoginRequest_AppId req)) (app, Some err))
     (trace_of o (served a (serverAPI_Login req)) s) ->
  result_of o (Auth_Login a (LoginRequest_Email req)
                 (LoginRequest_Password req) (LoginRequest_AppId req)) s =
    ("", Some (fmt_Errorf "services.auth.Login" err)) /\
  (forall user app' ttl r,
      ~ In (Ev (jwt_NewToken user app' ttl) r)
           (trace_of o (served a (serverAPI_Login req)) s)) /\
  (errors_Is err ErrInvalidCredentials = false ->
   result_of o (served a (serverAPI_Login req)) s =
     (None, Some (status_Error codes_Internal internalServerError))).
Proof.
  rpc o; intros E; member E.
  all: repeat split; try congruence; intros ? ? ? ? E'; member E'.
Qed.

(** X4: when [bcrypt.GenerateFromPassword] fails, [RegisterNewUser] returns 0
    with that error wrapped, and the store is not asked to save. *)
Theorem Register_hash_failure_saves_nothing
  (s : St) (a : Auth) (email password : string) (hash : bytes) (err : error) :
  In (Ev (bcrypt_GenerateFromPassword (bytes_of password) bcrypt_DefaultCost)
         (hash, Some err))
     (trace_of o (Auth_RegisterNewUser a email password) s) ->
  result_of o (Auth_RegisterNewUser a email password) s =
    (0, Some (fmt_Errorf "services.auth.RegisterNewUser" err)) /\
  forall email' hash' r,
    ~ In (Ev (userSaver_SaveUser email' hash') r)
         (trace_of o (Auth_RegisterNewUser a email password) s).
Proof.
  paths o; intros E; member E.
  split; [reflexivity | intros ? ? ? E'; member E'].
Qed.

(** X5: [RegisterNewUser] hands the store the email it was given and the hash
    [bcrypt.GenerateFromPassword] made of the password, never the
    password. *)
Theorem Register_saves_the_hash
  (s : St) (a : Auth) (email password : string)
  (pre post : list core_event) (email' : string) (hash : bytes)
  (r : Z * option error) :
  trace_of o (Auth_RegisterNewUser a email password) s =
    (pre ++ Ev (userSaver_SaveUser email' hash) r :: post)%list ->
  email' = email /\
  In (Ev (bcrypt_GenerateFromPassword (bytes_of password) bcrypt_DefaultCost)
         (hash, None)) pre.
Proof.
  paths o; intros E; walk E; try discriminate E.
  all: apply Ev_call in E; injection E as <- <-; cbn [In]; auto.
Qed.

(** X6: when the store answers [IsAdmin] without an error, the core and the
    handler return its flag unchanged. *)
Theorem IsAdmin_returns_the_flag
  (s : St) (a : Auth) (req : IsAdminRequest) (isAdmin : bool) :
  In (Ev (userProvider_IsAdmin (IsAdminRequest_UserId req)) (isAdmin, None))
     (trace_of o (served a (serverAPI_IsAdmin req)) s) ->
  result_of o (Auth_IsAdmin a (IsAdminRequest_UserId req)) s =
    (isAdmin, None) /\
  result_of o (served a (serverAPI_IsAdmin req)) s =
    (Some {| IsAdminResponse_IsAdmin := isAdmin |}, None).
Proof.
  rpc o; intros E; member E; auto.
Qed.

(** X7: whatever a store, [bcrypt] or the issuer put in their errors, the
    message a handler sends after a request passed validation is one of
    four fixed texts. *)
Theorem handler_messages_are_fixed
  (s : St) (a : Auth) (login : LoginRequest) (register : RegisterRequest)
  (isAdmin : IsAdminRequest) :
  let fixed := ["invalid email or password"; "user already exists";
                "user not found"; internalServerError] in
  (validate_Struct (LoginRequestValidation_fields (Login_data login)) = None ->
   forall st,
     snd (result_of o (served a (serverAPI_Login login)) s) = Some st ->
     In (Message st) fixed) /\
  (validate_Struct (RegisterRequestValidation_fields (Register_data register))
     = None ->
   forall st,
     snd (result_of o (served a (serverAPI_Register register)) s) = Some st ->
     In (Message st) fixed) /\
  (validate_Struct (IsAdminRequestValidation_fields (IsAdmin_data isAdmin))
     = None ->
   forall st,
     snd (result_of o (served a (serverAPI_IsAdmin isAdmin)) s) = Some st ->
     In (Message st) fixed).
Proof.
  cbv zeta. repeat split.
  all: rpc o; try discriminate.
  all: intros _ st [= <-]; cbn; auto.
Qed.

End FurtherProperties.

(** ** More on the operations of the core *)

Section MoreCoreProperties.
Context `{Externals}.
Context {St : Type} (o : oracle core_call core_ret St).

(** X8: a failure of the user store at the lookup that does not match
    [storage.ErrUserNotFound] is passed on wrapped in the operation name;
    the password is not compared, the app store and the issuer are not
    asked, and the handler answers [Internal] unless the error itself
    matches [ErrInvalidCredentials]. *)
Theorem Login_lookup_failure_is_passed_on
  (s : St) (a : Auth) (req : LoginRequest) (u : models_User) (err : error) :
  In (Ev (userProvider_User (LoginRequest_Email req)) (u, Some err))
     (trace_of o (served a (serverAPI_Login req)) s) ->
  errors_Is err storage_ErrUserNotFound = false ->
  let tr := trace_of o (served a (serverAPI_Login req)) s in
  result_of o (Auth_Login a (LoginRequest_Email req)
                 (LoginRequest_Password req) (LoginRequest_AppId req)) s =
    ("", Some (fmt_Errorf "services.auth.Login" err)) /\
  (forall hash pw r, ~ In (Ev (bcrypt_CompareHashAndPassword hash pw) r) tr) /\
  (forall id r, ~ In (Ev (appProvider_App id) r) tr) /\
  (forall user app ttl r, ~ In (Ev (jwt_NewToken user app ttl) r) tr) /\
  (errors_Is err ErrInvalidCredentials = false ->
   result_of o (served a (serverAPI_Login req)) s =
     (None, Some (status_Error codes_Internal internalServerError))).
Proof.
  cbv zeta. rpc o; intros E; member E; intros Hnf; try congruence.
  all: split; [reflexivity | split; [|split; [|split]]].
  all: try congruence.
  all: intros; intros E'; member E'.
Qed.

(** X9: when [jwt.NewToken] fails, [Login] returns the empty token, whatever
    the issuer handed back next to its error, with that error wrapped in
    the operation name; the handler answers [Internal] unless the error
    itself matches [ErrInvalidCredentials]. *)
Theorem Login_issuer_failure_drops_the_token
  (s : St) (a : Auth) (req : LoginRequest)
  (user : models_User) (app : models_App) (ttl : Z) (token : string)
  (err : error) :
  In (Ev (jwt_NewToken user app ttl) (token, Some err))
     (trace_of o (served a (serverAPI_Login req)) s) ->
  result_of o (Auth_Login a (LoginRequest_Email req)
                 (LoginRequest_Password req) (LoginRequest_AppId req)) s =
    ("", Some (fmt_Errorf "services.auth.Login" err)) /\
  (errors_Is err ErrInvalidCredentials = false ->
   result_of o (served a (serverAPI_Login req)) s =
     (None, Some (status_Error codes_Internal internalServerError))).
Proof.
  rpc o; intros E; member E; split; congruence.
Qed.

(** X10: [Login] calls nothing but the logger, the user lookup with its
    email, the password comparison with its password, the app lookup with
    its app ID and the issuer with the configured TTL, four collaborator
    calls at most; [RegisterNewUser] nothing but the logger, the hashing of
    its password at the default cost and the save under its email, two at
    most; [IsAdmin] the logger and exactly one admin query for its user
    ID. *)
Theorem operations_call_only_their_collaborators
  (s : St) (a : Auth) (email password : string) (appID userID : Z) :
  let login := trace_of o (Auth_Login a email password appID) s in
  let register := trace_of o (Auth_RegisterNewUser a email password) s in
  let isAdmin := trace_of o (Auth_IsAdmin a userID) s in
  (Forall (fun e => Login_may_call a email password appID (projT1 e)) login /\
   (length (collaborator_calls login) <= 4)%nat) /\
  (Forall (fun e => Register_may_call email password (projT1 e)) register /\
   (length (collaborator_calls register) <= 2)%nat) /\
  (Forall (fun e => IsAdmin_may_call userID (projT1 e)) isAdmin /\
   length (collaborator_calls isAdmin) = 1%nat).
Proof.
  cbv zeta. repeat split.
  all: paths o; cbn; repeat constructor; auto.
Qed.

(** X11: what [Login] and [RegisterNewUser] hand to the logger. The logger
    is the one of the service, bare or with the operation name and the
    email attached; the message is one of the fixed texts of the source;
    the arguments are none or the text of an error a collaborator answered
    with before. And the lines do not depend on the password or on a hash:
    when the collaborators give the same answers, the log calls are the
    same for any two passwords and any two hashes, stored or generated. *)
Theorem Login_and_Register_log_no_secret
  (s : St) (a : Auth) (email password : string) (appID : Z) :
  let logged (op : string) (texts : list string) (tr : list core_event) :=
    forall pre l level msg args r post,
      tr = (pre ++ Ev (slog_Log l level msg args) r :: post)%list ->
      (l = Auth_log a \/
       l = Logger_With (Auth_log a)
             [slog_String "op" op; slog_String "email" email]) /\
      In msg texts /\
      (args = [] \/
       exists e err,
         In e pre /\ answered_error e = Some err /\
         args = [arg_string (Error err)]) in
  logged "services.auth.Login"
    ["logging user"; "invalid credentials"; "failed to get user";
     "failed to generate token"; "user logged in successfully"]
    (trace_of o (Auth_Login a email password appID) s) /\
  logged "services.auth.RegisterNewUser"
    ["registering user"; "failed to generate password hash";
     "user already exists"; "failed to save user"; "user registered"]
    (trace_of o (Auth_RegisterNewUser a email password) s) /\
  (forall (w : answers) (password' : string) (hash : bytes),
      log_lines (trace_of (scripted (with_stored_hash w hash))
                   (Auth_Login a email password' appID) tt) =
      log_lines (trace_of (scripted w)
                   (Auth_Login a email password appID) tt)) /\
  (forall (w : answers) (password' : string) (hash : bytes),
      log_lines (trace_of (scripted (with_generated_hash w hash))
                   (Auth_RegisterNewUser a email password') tt) =
      log_lines (trace_of (scripted w)
                   (Auth_RegisterNewUser a email password) tt)).
Proof.
  cbv zeta. split; [|split; [|split]].
  1-2: intros pre l level msg args r post;
    paths o; intros E; walk E; try discriminate E;
    apply Ev_call in E; injection E as <- <- <- <-;
    (split; [auto|]); (split; [cbn [In]; auto 10|]);
    first
      [ left; reflexivity
      | right; do 2 eexists;
        (split; [cbn [In]; eauto 10 | split; reflexivity]) ].
  - intros [[u [eu|]] ia su [ap [ea|]] [ec|] g [tk [et|]]] password' hash;
      unfold trace_of, Auth_Login, Logger_Info, Logger_Warn, Logger_Error,
        call; cbn;
      repeat match goal with
      | |- context [if errors_Is ?e ?t then _ else _] =>
          destruct (errors_Is e t)
      end; reflexivity.
  - intros [us ia [id [es|]] ap ec [g [eg|]] tk] password' hash;
      unfold trace_of, Auth_RegisterNewUser, Logger_Info, Logger_Warn,
        Logger_Error, call; cbn;
      repeat match goal with
      | |- context [if errors_Is ?e ?t then _ else _] =>
          destruct (errors_Is e t)
      end; reflexivity.
Qed.

End MoreCoreProperties.

(** ** More on the handlers, over any implementation of [Auth] *)

Section HandlerProperties.
Context `{Externals}.
Context {St : Type} (o : oracle auth_call auth_ret St).

Ltac handle :=
  unfold trace_of, result_of, serverAPI_Login, serverAPI_Register,
    serverAPI_IsAdmin, call;
  match goal with
  | |- context [validate_Struct ?fs] => destruct (validate_Struct fs) eqn:?
  end;
  repeat first [ progress cbn [run bind] | answer o ];
  cbn [fst snd].

(** X12: a request that passes validation makes its handler call its own
    method of the [Auth] interface exactly once, with the fields of the
    request unchanged, and nothing else. *)
Theorem handlers_call_the_core_once
  (s : St) (login : LoginRequest) (register : RegisterRequest)
  (isAdmin : IsAdminRequest) :
  (validate_Struct (LoginRequestValidation_fields (Login_data login)) = None ->
   exists r,
     trace_of o (serverAPI_Login login) s =
     [Ev (Auth_call_Login (LoginRequest_Email login)
            (LoginRequest_Password login) (LoginRequest_AppId login)) r]) /\
  (validate_Struct (RegisterRequestValidation_fields (Register_data register))
     = None ->
   exists r,
     trace_of o (serverAPI_Register register) s =
     [Ev (Auth_call_RegisterNewUser (RegisterRequest_Email register)
            (RegisterRequest_Password register)) r]) /\
  (validate_Struct (IsAdminRequestValidation_fields (IsAdmin_data isAdmin))
     = None ->
   exists r,
     trace_of o (serverAPI_IsAdmin isAdmin) s =
     [Ev (Auth_call_IsAdmin (IsAdminRequest_UserId isAdmin)) r]).
Proof.
  repeat split; handle; try discriminate; intros _; eexists; reflexivity.
Qed.

(** X13: each handler returns either a response and no error, or no
    response and a status; the status of [Login] is [InvalidArgument] or
    [Internal], that of [Register] [InvalidArgument], [AlreadyExists] or
    [Internal], that of [IsAdmin] [InvalidArgument], [NotFound] or
    [Internal]. *)
Theorem handlers_answer_a_response_or_a_status
  (s : St) (login : LoginRequest) (register : RegisterRequest)
  (isAdmin : IsAdminRequest) :
  let one_of (A : Type) (cs : list codes) (res : option A * option Status) :=
    match res with
    | (Some _, None) => True
    | (None, Some st) => In (Code st) cs
    | _ => False
    end in
  one_of LoginResponse [codes_InvalidArgument; codes_Internal]
    (result_of o (serverAPI_Login login) s) /\
  one_of RegisterResponse
    [codes_InvalidArgument; codes_AlreadyExists; codes_Internal]
    (result_of o (serverAPI_Register register) s) /\
  one_of IsAdminResponse
    [codes_InvalidArgument; codes_NotFound; codes_Internal]
    (result_of o (serverAPI_IsAdmin isAdmin) s).
Proof.
  cbv zeta. repeat split; handle; cbn; auto.
Qed.

End HandlerProperties.

Section ValidationReports.
Context `{Externals}.

(** X14: which violation the validator reports. Fields come in the order of
    the struct and each gives at most one violation, that of its first tag
    that fails: an empty email or password is reported as [required] (not
    as [email] or [min]), a password of fewer than 6 characters as [min],
    one of more than 32 (Register) as [max], an ID of 0 as [required] and a
    negative ID as [gt]. *)
Theorem validation_reports_the_first_failing_tag :
  let violation (f t : string) := [ {| Field := f; Tag := t |} ] in
  let on_email (e : string) :=
    if String.eqb e "" then violation "Email" "required"
    else if isEmail e then [] else violation "Email" "email" in
  let on_id (f : string) (i : Z) :=
    if i =? 0 then violation f "required"
    else if i <? 0 then violation f "gt" else [] in
  (forall d : LoginRequestValidation,
      flat_map validate_field (LoginRequestValidation_fields d) =
      (on_email (LoginRequestValidation_Email d) ++
       (let p := LoginRequestValidation_Password d in
        if String.eqb p "" then violation "Password" "required"
        else if utf8_RuneCountInString p <? 6 then violation "Password" "min"
        else []) ++
       on_id "AppId" (LoginRequestValidation_AppId d))%list) /\
  (forall d : RegisterRequestValidation,
      flat_map validate_field (RegisterRequestValidation_fields d) =
      (on_email (RegisterRequestValidation_Email d) ++
       (let p := RegisterRequestValidation_Password d in
        if String.eqb p "" then violation "Password" "required"
        else if utf8_RuneCountInString p <? 6 then violation "Password" "min"
        else if 32 <? utf8_RuneCountInString p
             then violation "Password" "max"
        else []))%list) /\
  (forall d : IsAdminRequestValidation,
      flat_map validate_field (IsAdminRequestValidation_fields d) =
      on_id "UserId" (IsAdminRequestValidation_UserId d)).
Proof.
  cbv zeta. repeat split; intros d.
  all: unfold LoginRequestValidation_fields, RegisterRequestValidation_fields,
         IsAdminRequestValidation_fields;
       unfold validate_field;
       cbn [flat_map field_tags field_val field_name first_failing
              tag_holds].
  all: repeat match goal with
       | |- context [String.eqb ?x ""] => destruct (String.eqb x "")
       | |- context [negb true] => cbn [negb]
       | |- context [negb false] => cbn [negb]
       | |- context [isEmail ?x] => destruct (isEmail x)
       | |- context [?x =? 0] => destruct (Z.eqb_spec x 0)
       | |- context [?x <=? ?y] => destruct (Z.leb_spec x y)
       | |- context [?x <? ?y] => destruct (Z.ltb_spec x y)
       end; cbn; try reflexivity; try lia.
Qed.

End ValidationReports.

(** ** The gRPC application: [New], [run], [MustRun], [Stop] *)

Lemma app_call_eq_dec (x y : app_call) : {x = y} + {x <> y}.
Proof.
  assert (Hattr : forall a b : slog_Attr, {a = b} + {a <> b})
    by (decide equality; auto using string_dec, Z.eq_dec, bool_dec).
  assert (Hl : forall a b : Logger, {a = b} + {a <> b})
    by (apply list_eq_dec, Hattr).
  assert (Harg : forall a b : slog_arg, {a = b} + {a <> b})
    by (decide equality; auto using string_dec).
  assert (Ha : forall a b : Auth, {a = b} + {a <> b})
    by (decide equality; auto using Z.eq_dec).
  assert (Hs : forall a b : serverAPI, {a = b} + {a <> b})
    by (decide equality).
  assert (Hn : forall a b : net_Listener, {a = b} + {a <> b})
    by (decide equality; auto using string_dec).
  decide equality; auto using string_dec, Z.eq_dec, list_eq_dec.
  decide equality.
Defined.

Lemma app_Ev_answer (c : app_call) (r r' : app_ret c) :
  Ev c r = Ev c r' -> r = r'.
Proof. apply inj_pair2_eq_dec, app_call_eq_dec. Qed.

Ltac app_paths o :=
  unfold trace_of, result_of;
  repeat first
    [ progress cbn [run bind]
    | progress unfold App_MustRun, App_run, App_Stop, grpcapp_New,
        RegisterServer, call
    | answer o ];
  cbn [fst snd].

Ltac app_member E :=
  cbn [In] in E;
  repeat match type of E with
  | _ \/ _ => destruct E as [E | E]
  | False => destruct E
  end;
  try discriminate E;
  try (let Ec := fresh "Ec" in
       pose proof (Ev_call _ _ _ _ E) as Ec; inversion Ec; subst; clear Ec;
       apply app_Ev_answer in E; try discriminate E; inversion E; subst).

(** As [walk], keeping what comes after the event too. *)
Ltac locate E :=
  repeat match type of E with
  | _ :: _ = (_ ++ _ :: _)%list =>
      apply split_cons in E; destruct E as [(-> & E & <-) | (? & -> & E)]
  | [] = (_ ++ _ :: _)%list => destruct (split_nil _ _ _ E)
  end.

Section GrpcappProperties.
Context {St : Type} (o : oracle app_call app_ret St).

(** X15: when [net.Listen] fails, [run] returns that error wrapped in
    "app.grpcapp.Run" and does nothing else: nothing is logged and [Serve]
    is not called. The address it listens on is ":" followed by the port
    in decimal, on "tcp". *)
Theorem run_listen_failure_stops_there
  (s : St) (a : grpcapp_App) (network address : string)
  (lis : net_Listener) (err : error) :
  In (Ev (net_Listen network address) (lis, Some err))
     (trace_of o (App_run a) s) ->
  network = "tcp" /\ address = ":" ++ fmt_d (App_port a) /\
  result_of o (App_run a) s = Some (fmt_Errorf "app.grpcapp.Run" err) /\
  trace_of o (App_run a) s =
    [Ev (net_Listen network address) (lis, Some err)].
Proof.
  app_paths o; intros E; app_member E; auto.
Qed.

(** X16: [run] calls [Serve] at most once, on the server of the [App] and
    with the listener a successful [net.Listen] returned, after logging
    "gRPC server is running" with that listener's address; the line goes to
    the logger of the [App] as it is, since the logger made with [With]
    (operation name and port) is dropped. *)
Theorem run_serves_on_the_listener
  (s : St) (a : grpcapp_App) (pre post : list app_event)
  (srv : grpc_Server) (lis : net_Listener) (r : option error) :
  trace_of o (App_run a) s = (pre ++ Ev (Server_Serve srv lis) r :: post)%list ->
  srv = App_gRPCServer a /\
  pre = [ Ev (net_Listen "tcp" (":" ++ fmt_d (App_port a))) (lis, None);
          Ev (app_Log (App_log a) LevelInfo "gRPC server is running"
                [arg_Attr (slog_String "address" (Listener_Addr lis))]) tt ] /\
  post = [] /\
  result_of o (App_run a) s =
    match r with
    | Some err => Some (fmt_Errorf "app.grpcapp.Run" err)
    | None => None
    end.
Proof.
  app_paths o; intros E; locate E; try discriminate E.
  all: pose proof (Ev_call _ _ _ _ E) as Ec; injection Ec as <- <-.
  all: apply app_Ev_answer in E; try discriminate E;
    try (injection E as <-); auto.
Qed.

(** X17: [MustRun] panics exactly when [net.Listen] or [Serve] returned an
    error, and the panic value is that error wrapped in "app.grpcapp.Run";
    it returns normally only after both returned nil. *)
Theorem MustRun_panics_on_the_failure_of_run (s : St) (a : grpcapp_App) :
  let tr := trace_of o (App_MustRun a) s in
  match result_of o (App_MustRun a) s with
  | panicked v =>
      exists cause,
        v = fmt_Errorf "app.grpcapp.Run" cause /\
        ((exists network address lis,
             In (Ev (net_Listen network address) (lis, Some cause)) tr) \/
         (exists srv lis, In (Ev (Server_Serve srv lis) (Some cause)) tr))
  | returned =>
      (exists network address lis,
          In (Ev (net_Listen network address) (lis, None)) tr) /\
      (exists srv lis, In (Ev (Server_Serve srv lis) None) tr)
  end.
Proof.
  cbv zeta. app_paths o.
  - eexists. split; [reflexivity|]. left. do 3 eexists. left. reflexivity.
  - eexists. split; [reflexivity|]. right. do 2 eexists.
    right; right; left. reflexivity.
  - split; [do 3 eexists; left; reflexivity|].
    do 2 eexists. right; right; left. reflexivity.
Qed.

(** X18: building the application and running it: [Serve] is called on the
    server [grpc.NewServer] returned, after the auth service was registered
    on that same server. *)
Theorem New_registers_before_serving
  (s : St) (log : Logger) (authService : Auth) (port : Z)
  (pre post : list app_event) (srv : grpc_Server) (lis : net_Listener)
  (r : option error) :
  trace_of o (bind (grpcapp_New log authService port) App_MustRun) s =
    (pre ++ Ev (Server_Serve srv lis) r :: post)%list ->
  In (Ev (R := app_ret) grpc_NewServer srv) pre /\
  In (Ev (R := app_ret)
        (ssov1_RegisterAuthServer srv {| serverAPI_auth := authService |}) tt)
     pre.
Proof.
  app_paths o; intros E; walk E; try discriminate E.
  all: pose proof (Ev_call _ _ _ _ E) as Ec; injection Ec as <- <-.
  all: cbn [In]; auto.
Qed.

End GrpcappProperties.

(** ** Which failures leave a line in the log *)

Section LoggedFailures.
Context `{Externals}.
Context {St : Type} (o : oracle core_call core_ret St).

(** X19: when a collaborator answers with an error, [Login] and
    [RegisterNewUser] log one line above the [Info] level with the text of
    that error and return, except that [Login] returns without a line when
    it is the app store that failed; [IsAdmin] logs a line only for an
    error that matches [storage.ErrAppNotFound]. In each case nothing is
    called after the failure but the logger. *)
Theorem failures_are_logged_except_some
  (s : St) (a : Auth) (email password : string) (appID userID : Z) :
  let line (err : error) (post : list core_event) :=
    exists l level msg,
      level <> LevelInfo /\
      post = [Ev (slog_Log l level msg [arg_string (Error err)]) tt] in
  (forall pre e post err,
      trace_of o (Auth_Login a email password appID) s
        = (pre ++ e :: post)%list ->
      answered_error e = Some err ->
      match projT1 e with
      | appProvider_App _ => post = []
      | _ => line err post
      end) /\
  (forall pre e post err,
      trace_of o (Auth_RegisterNewUser a email password) s
        = (pre ++ e :: post)%list ->
      answered_error e = Some err ->
      line err post) /\
  (forall pre e post err,
      trace_of o (Auth_IsAdmin a userID) s = (pre ++ e :: post)%list ->
      answered_error e = Some err ->
      if errors_Is err storage_ErrAppNotFound then line err post
      else post = []).
Proof.
  cbv zeta. repeat split; intros pre e post err.
  all: paths o; intros E; locate E; subst e; cbn [answered_error snd];
    try discriminate; intros [= <-]; cbn [projT1 Ev].
  all: try congruence.
  all: repeat match goal with
       | Hm : errors_Is _ _ = _ |- _ => rewrite Hm
       end.
  all: try reflexivity.
  all: do 3 eexists; split; [|reflexivity]; discriminate.
Qed.

End LoggedFailures.


(** ** The theorems at work on concrete runs *)

(** A successful login: the calls in the order of the source, and the
    token of the issuer as the result. *)
Example Login_succeeds :
  run (scripted all_fine)
      (Auth_Login (H := sample_externals) sample_auth
         "alice@example.com" "secret1" 1) tt =
  (("signed.jwt.token", None),
   [ Ev (slog_Log [slog_String "op" "services.auth.Login";
                   slog_String "email" "alice@example.com"]
           LevelInfo "logging user" []) tt;
     Ev (userProvider_User "alice@example.com") (alice, None);
     Ev (bcrypt_CompareHashAndPassword
           (User_PassHash alice) (bytes_of "secret1")) None;
     Ev (appProvider_App 1) (sample_app, None);
     Ev (jwt_NewToken alice sample_app 3600) ("signed.jwt.token", None);
     Ev (slog_Log [slog_String "op" "services.auth.Login";
                   slog_String "email" "alice@example.com"]
           LevelInfo "user logged in successfully" []) tt ],
   tt).
Proof. reflexivity. Qed.

Example Login_unknown_email_refused :
  result_of (scripted unknown_user_id)
    (sample_Login login_alice)
    tt =
  (None, Some (status_Error codes_InvalidArgument "invalid email or password")).
Proof. reflexivity. Qed.

Example Login_wrong_password_refused :
  result_of (scripted wrong_password)
    (sample_Login login_alice)
    tt =
  (None, Some (status_Error codes_InvalidArgument "invalid email or password")).
Proof. reflexivity. Qed.

Example Login_short_password_violation :
  serverAPI_Login (H := sample_externals)
    {| LoginRequest_Email := "not-an-email";
       LoginRequest_Password := "ab";
       LoginRequest_AppId := 0 |} =
  Ret (None,
       Some (status_Error codes_InvalidArgument
               ("validation error: [Field 'Email' failed validation: email "
                ++ "Field 'Password' failed validation: min "
                ++ "Field 'AppId' failed validation: required]"))).
Proof. reflexivity. Qed.

Example IsAdmin_known_admin :
  result_of (scripted all_fine)
    (sample_IsAdmin is_admin_7)
    tt =
  (Some {| IsAdminResponse_IsAdmin := true |}, None).
Proof. reflexivity. Qed.

Example RuneCount_ascii : utf8_RuneCountInString "secret" = 6.
Proof. reflexivity. Qed.

(** Two bytes that encode one character count once; a stray continuation
    byte counts as a rune of its own. *)
Example RuneCount_two_byte :
  utf8_RuneCountInString (String "195" (String "169" "ab")) = 3 /\
  utf8_RuneCountInString (String "169" "ab") = 3.
Proof. split; reflexivity. Qed.

Lemma IsAdmin_maps_only_app_not_found_witness :
  result_of (scripted unknown_user_id)
    (Auth_IsAdmin (H := sample_externals) sample_auth 7) tt =
  (false,
   Some (fmt_Errorf "services.auth.IsAdmin"
           (errorString (@storage_ErrUserNotFound sample_externals)))).
Proof.
  assert (Hin : In (Ev (userProvider_IsAdmin 7)
                      (false, Some (errorString
                         (@storage_ErrUserNotFound sample_externals))))
                   (trace_of (scripted unknown_user_id)
                      (Auth_IsAdmin (H := sample_externals) sample_auth 7) tt))
    by (right; left; reflexivity).
  pose proof (@IsAdmin_maps_only_app_not_found sample_externals unit
                (scripted unknown_user_id) tt sample_auth 7 false _ Hin)
    as (_ & Hother & _).
  destruct (Hother eq_refl) as (Hres & _).
  exact Hres.
Defined.

Lemma IsAdmin_InvalidAppID_reaches_the_caller_as_Internal_witness :
  result_of (scripted app_not_found_on_IsAdmin)
    (sample_IsAdmin is_admin_7)
    tt =
  (None, Some (status_Error codes_Internal "internal server error")).
Proof.
  assert (Hne : addr (@ErrUserNotFound sample_externals)
                <> addr ErrInvalidAppID) by discriminate.
  assert (Hin : In (Ev (userProvider_IsAdmin (IsAdminRequest_UserId is_admin_7))
                      (false, Some (errorString
                         (@storage_ErrAppNotFound sample_externals))))
                   (trace_of (scripted app_not_found_on_IsAdmin)
                      (sample_IsAdmin is_admin_7) tt))
    by (right; left; reflexivity).
  exact (proj2 (@IsAdmin_InvalidAppID_reaches_the_caller_as_Internal
                  sample_externals unit (scripted app_not_found_on_IsAdmin)
                  tt sample_auth is_admin_7 false _ Hne Hin eq_refl)).
Defined.

(** C6 as the spec states it fails: a save error that does not match
    [storage.ErrUserExists] is not always answered with [Internal]. The
    saver here fails with the core's own [ErrUserExists]; the core passes it
    on wrapped, and the handler answers [AlreadyExists]. *)
Lemma Register_other_store_failure_not_always_Internal :
  ~ (forall (ext : Externals) (St : Type) (o : oracle core_call core_ret St)
       (s : St) (a : Auth) (req : RegisterRequest)
       (hash : bytes) (id : Z) (err : error),
        In (Ev (userSaver_SaveUser (RegisterRequest_Email req) hash)
              (id, Some err))
           (trace_of o (served (H := ext) a
                          (serverAPI_Register (H := ext) req)) s) ->
        errors_Is err (@storage_ErrUserExists ext) = false ->
        result_of o (served (H := ext) a
                       (serverAPI_Register (H := ext) req)) s =
          (None, Some (status_Error codes_Internal internalServerError))).
Proof.
  intros claim.
  specialize (claim sample_externals unit
                (scripted saver_with_the_core_sentinel) tt sample_auth
                register_bob (bytes_of "$2a$10$fresh") 0
                (errorString ErrUserExists)).
  assert (Hin : In (Ev (userSaver_SaveUser
                          (RegisterRequest_Email register_bob)
                          (bytes_of "$2a$10$fresh"))
                      (0, Some (errorString ErrUserExists)))
                   (trace_of (scripted saver_with_the_core_sentinel)
                      (sample_Register register_bob) tt))
    by (right; right; left; reflexivity).
  specialize (claim Hin eq_refl).
  vm_compute in claim. discriminate claim.
Qed.

Lemma Login_unauthenticated_run_ignores_the_app_witness :
  run (scripted wrong_password)
    (Auth_Login (H := sample_externals) sample_auth
       "alice@example.com" "secret2" 2) tt =
  run (scripted wrong_password)
    (Auth_Login (H := sample_externals) sample_auth
       "alice@example.com" "secret2" 1) tt.
Proof.
  apply (@Login_unauthenticated_run_ignores_the_app sample_externals unit).
  right.
  exists (User_PassHash alice), (bytes_of "secret2"),
    (errorString bcrypt_ErrMismatchedHashAndPassword).
  right; right; left; reflexivity.
Defined.

Lemma Login_returns_the_issued_token_witness :
  result_of (scripted all_fine)
    (sample_Login login_alice) tt =
  (Some {| LoginResponse_Token := "signed.jwt.token" |}, None).
Proof.
  refine (proj2 (proj2 (@Login_returns_the_issued_token sample_externals unit
                          (scripted all_fine) tt sample_auth login_alice
                          alice sample_app 3600 "signed.jwt.token" _))).
  do 4 right; left; reflexivity.
Defined.

Lemma Login_app_store_failure_is_passed_on_witness :
  result_of (scripted unknown_app)
    (sample_Login login_alice) tt =
  (None, Some (status_Error codes_Internal "internal server error")).
Proof.
  refine (proj2 (proj2 (@Login_app_store_failure_is_passed_on
                          sample_externals unit (scripted unknown_app) tt
                          sample_auth login_alice
                          {| App_ID := 0; App_Name := ""; App_Secret := "" |}
                          (errorString
                             (@storage_ErrAppNotFound sample_externals)) _))
            eq_refl).
  do 3 right; left; reflexivity.
Defined.

Lemma Register_hash_failure_saves_nothing_witness :
  result_of (scripted hash_failure)
    (Auth_RegisterNewUser (H := sample_externals) sample_auth
       "bob@example.com" "secret1") tt =
  (0, Some (fmt_Errorf "services.auth.RegisterNewUser"
              (errorString bcrypt_ErrPasswordTooLong))).
Proof.
  refine (proj1 (@Register_hash_failure_saves_nothing sample_externals unit
                   (scripted hash_failure) tt sample_auth
                   "bob@example.com" "secret1" []
                   (errorString bcrypt_ErrPasswordTooLong) _)).
  right; left; reflexivity.
Defined.

Lemma Register_saves_the_hash_witness :
  In (Ev (R := core_ret)
        (bcrypt_GenerateFromPassword (bytes_of "secret1") bcrypt_DefaultCost)
        (bytes_of "$2a$10$fresh", None))
     [ Ev (R := core_ret)
          (slog_Log [slog_String "op" "services.auth.RegisterNewUser";
                     slog_String "email" "bob@example.com"]
             LevelInfo "registering user" []) tt;
       Ev (R := core_ret)
          (bcrypt_GenerateFromPassword (bytes_of "secret1") bcrypt_DefaultCost)
          (bytes_of "$2a$10$fresh", None) ].
Proof.
  refine (proj2 (@Register_saves_the_hash sample_externals unit
                   (scripted all_fine) tt sample_auth
                   "bob@example.com" "secret1" _
                   [ Ev (R := core_ret)
                        (slog_Log
                           [slog_String "op" "services.auth.RegisterNewUser";
                            slog_String "email" "bob@example.com"]
                           LevelInfo "user registered" []) tt ]
                   "bob@example.com" (bytes_of "$2a$10$fresh") (8, None) _)).
  reflexivity.
Defined.

Lemma IsAdmin_returns_the_flag_witness :
  result_of (scripted all_fine)
    (sample_IsAdmin is_admin_7) tt =
  (Some {| IsAdminResponse_IsAdmin := true |}, None).
Proof.
  refine (proj2 (@IsAdmin_returns_the_flag sample_externals unit
                   (scripted all_fine) tt sample_auth is_admin_7 true _)).
  right; left; reflexivity.
Defined.

Example IsAdmin_handler_maps_ErrUserNotFound_only_run :
  result_of
    (replying ("", None) (0, None)
       (false, Some (fmt_Errorf "services.auth.IsAdmin"
                       (errorString (@ErrUserNotFound sample_externals)))))
    (serverAPI_IsAdmin (H := sample_externals) is_admin_7) tt =
  (None, Some (status_Error codes_NotFound "user not found")).
Proof.
  exact (proj1 (@IsAdmin_handler_maps_ErrUserNotFound_only sample_externals
                  is_admin_7 false
                  (fmt_Errorf "services.auth.IsAdmin"
                     (errorString (@ErrUserNotFound sample_externals)))
                  ("", None) (0, None) eq_refl)
           eq_refl).
Qed.

(** The handler alone: an error of kind [ErrInvalidAppID], such as the one
    [Auth.IsAdmin] returns for [storage.ErrAppNotFound], is not answered
    [NotFound]. *)
Lemma IsAdmin_InvalidAppID_is_not_answered_NotFound :
  ~ (forall (ext : Externals) (req : IsAdminRequest) (b : bool) (err : error)
       (login : string * option error) (register : Z * option error),
        validate_Struct (H := ext)
          (IsAdminRequestValidation_fields (IsAdmin_data req)) = None ->
        errors_Is err (@ErrUserNotFound ext) = true \/
        errors_Is err ErrInvalidAppID = true ->
        result_of (replying login register (b, Some err))
          (serverAPI_IsAdmin (H := ext) req) tt =
        (None, Some (status_Error codes_NotFound "user not found"))).
Proof.
  intros claim.
  specialize (claim sample_externals is_admin_7 false
                (fmt_Errorf "services.auth.IsAdmin" ErrInvalidAppID)
                ("", None) (0, None) eq_refl (or_intror eq_refl)).
  vm_compute in claim. discriminate claim.
Qed.

Lemma Login_lookup_failure_is_passed_on_witness :
  result_of (scripted user_store_down) (sample_Login login_alice) tt =
  (None, Some (status_Error codes_Internal "internal server error")).
Proof.
  refine (proj2 (proj2 (proj2 (proj2
            (@Login_lookup_failure_is_passed_on sample_externals unit
               (scripted user_store_down) tt sample_auth login_alice
               zero_User (errorString sql_ErrConnDone) _ eq_refl))))
            eq_refl).
  right; left; reflexivity.
Defined.

Lemma Login_issuer_failure_drops_the_token_witness :
  result_of (scripted issuer_failure)
    (Auth_Login (H := sample_externals) sample_auth
       "alice@example.com" "secret1" 1) tt =
  ("", Some (fmt_Errorf "services.auth.Login" (errorString jwt_ErrInvalidKey))).
Proof.
  refine (proj1 (@Login_issuer_failure_drops_the_token sample_externals unit
                   (scripted issuer_failure) tt sample_auth login_alice
                   alice sample_app 3600 "partial"
                   (errorString jwt_ErrInvalidKey) _)).
  do 4 right; left; reflexivity.
Defined.

Lemma run_listen_failure_stops_there_witness :
  result_of (scripted_app port_taken) (App_run sample_App) tt =
  Some (fmt_Errorf "app.grpcapp.Run" (errorString syscall_EADDRINUSE)).
Proof.
  refine (proj1 (proj2 (proj2
            (@run_listen_failure_stops_there unit (scripted_app port_taken)
               tt sample_App "tcp" ":44044" {| Listener_Addr := "" |}
               (errorString syscall_EADDRINUSE) _)))).
  left; reflexivity.
Defined.

Lemma run_serves_on_the_listener_witness :
  result_of (scripted_app served_until_stopped) (App_run sample_App) tt = None.
Proof.
  refine (proj2 (proj2 (proj2
            (@run_serves_on_the_listener unit
               (scripted_app served_until_stopped) tt sample_App
               [ Ev (R := app_ret) (net_Listen "tcp" ":44044")
                   (listener_44044, None);
                 Ev (R := app_ret)
                   (app_Log [] LevelInfo "gRPC server is running"
                      [arg_Attr (slog_String "address" "[::]:44044")]) tt ]
               [] 1 listener_44044 None _)))).
  reflexivity.
Defined.

Lemma New_registers_before_serving_witness :
  In (Ev (R := app_ret)
        (ssov1_RegisterAuthServer 1 {| serverAPI_auth := sample_auth |}) tt)
     [ Ev (R := app_ret) grpc_NewServer 1;
       Ev (R := app_ret)
         (ssov1_RegisterAuthServer 1 {| serverAPI_auth := sample_auth |}) tt;
       Ev (R := app_ret) (net_Listen "tcp" ":44044") (listener_44044, None);
       Ev (R := app_ret)
         (app_Log [] LevelInfo "gRPC server is running"
            [arg_Attr (slog_String "address" "[::]:44044")]) tt ].
Proof.
  refine (proj2 (@New_registers_before_serving unit
                   (scripted_app served_until_stopped) tt [] sample_auth 44044
                   _ [] 1 listener_44044 None _)).
  reflexivity.
Defined.


Lemma Register_store_outcomes_witness :
  result_of (scripted saver_with_the_core_sentinel)
    (sample_Register register_bob) tt =
  (None, Some (status_Error codes_AlreadyExists "user already exists")).
Proof.
  assert (Hhash : hashing_works (scripted saver_with_the_core_sentinel)
                    (RegisterRequest_Password register_bob))
    by (intros s; exists (bytes_of "$2a$10$fresh"); reflexivity).
  assert (Hsave : save_fails_with (scripted saver_with_the_core_sentinel)
                    (RegisterRequest_Email register_bob)
                    (errorString ErrUserExists))
    by (intros s hash; exists 0; reflexivity).
  pose proof (@Register_store_outcomes sample_externals unit
                (scripted saver_with_the_core_sentinel) tt sample_auth
                register_bob) as (_ & _ & _ & _ & Henv).
  destruct (Henv Hhash) as (Hfails & _).
  destruct (Hfails _ Hsave) as (_ & Hother).
  destruct (Hother eq_refl) as (_ & _ & Hexists).
  exact (Hexists eq_refl eq_refl).
Defined.
